(** * Replenish: the live bakery order board (src/App.js)

    A shallow embedding of the [App] component: its six state cells, the
    two mount/subscription effects, the snapshot callback, the two write
    handlers and the render function, together with the properties the
    specification states about them.

    Conventions.
    - A handler that mutates component state is a function [State -> State]
      built from the setters ([setLoading], [setProducts], ...).
    - Calls into the Firebase SDK and to [console.error] are recorded, in
      program order, as a list of [Effect]s.
    - An [async] handler is split at its [await]: the part before it, and a
      continuation that is run with the [Outcome] of the awaited promise.
    - Timestamps are integers ([Date.now()] is an integral number of
      milliseconds); on such values the sign of the IEEE difference
      [a.timestamp - b.timestamp] is the sign of the integer difference. *)

From Stdlib Require Import List String ZArith Lia Bool Permutation Sorted.
Import ListNotations.

Local Open Scope string_scope.
Local Open Scope list_scope.

(* ================================================================== *)
(** ** JavaScript built-ins used by the component *)

Section ArraySort.

Context {A : Type}.

(** [comparefn a b]: negative, zero or positive, as passed to
    [Array.prototype.sort]. *)
Variable comparefn : A -> A -> Z.

(** Insertion of [x], which preceded every element of [l] in the input,
    into the already sorted [l]: it moves past [y] only when
    [comparefn x y > 0]. *)
Fixpoint sort_insert (x : A) (l : list A) : list A :=
  match l with
  | [] => [x]
  | y :: l' =>
      if (0 <? comparefn x y)%Z then y :: sort_insert x l'
      else x :: y :: l'
  end.

(** [Array.prototype.sort(comparefn)].  ECMAScript requires the sort to
    be stable; for a consistent comparator every conforming engine
    returns the list computed by this insertion sort. *)
Fixpoint array_sort (l : list A) : list A :=
  match l with
  | [] => []
  | x :: l' => sort_insert x (array_sort l')
  end.

End ArraySort.

(* ================================================================== *)
(** ** Data model *)

(** Catalog entry, [{ id, name }] (lines 17-21). *)
Record CatalogEntry := mkCatalogEntry {
  item_id : string;
  item_name : string
}.

Definition bakeryItems : list CatalogEntry :=
  [ mkCatalogEntry "sausageRoll" "Sausage Roll";
    mkCatalogEntry "hamCheeseCroissant" "Ham and Cheese Croissant";
    mkCatalogEntry "spinachRoll" "Spinach Roll" ].

(** The fields of an order document, as written by [addDoc] at lines
    115-118 and as returned by [doc.data()].  [addedBy] is the [userId]
    cell, which is [null] until a user is signed in.  Documents are taken
    to have exactly these three fields, the shape this component writes: a
    document whose data carries a field of its own named [id] is outside
    the model. *)
Record DocData := mkDocData {
  name : string;
  timestamp : Z;
  addedBy : option string
}.

(** A document of a snapshot: [doc.id] and [doc.data()]. *)
Record Doc := mkDoc {
  doc_id : string;
  doc_data : DocData
}.

(** An element of the [products] cell: [{ id: doc.id, ...doc.data() }]. *)
Record Product := mkProduct {
  product_id : string;
  product_data : DocData
}.

(** Opaque values: a thrown or rejected error, the handles returned by
    [getFirestore] and [getAuth], and the [user] passed to the auth
    listener. *)
Record Err := mkErr { err_message : string }.
Record Firestore := mkFirestore { firestore_config : string }.
Record Auth := mkAuth { auth_config : string }.
Record User := mkUser { uid : string }.

(** The six [useState] cells (lines 9-14). *)
Record State := mkState {
  products : list Product;
  db : option Firestore;
  auth : option Auth;
  userId : option string;
  isAuthReady : bool;
  loading : bool
}.

Definition initialState : State :=
  mkState [] None None None false true.

Definition setProducts (v : list Product) (st : State) : State :=
  mkState v (db st) (auth st) (userId st) (isAuthReady st) (loading st).
Definition setDb (v : option Firestore) (st : State) : State :=
  mkState (products st) v (auth st) (userId st) (isAuthReady st) (loading st).
Definition setAuth (v : option Auth) (st : State) : State :=
  mkState (products st) (db st) v (userId st) (isAuthReady st) (loading st).
Definition setUserId (v : option string) (st : State) : State :=
  mkState (products st) (db st) (auth st) v (isAuthReady st) (loading st).
Definition setIsAuthReady (v : bool) (st : State) : State :=
  mkState (products st) (db st) (auth st) (userId st) v (loading st).
Definition setLoading (v : bool) (st : State) : State :=
  mkState (products st) (db st) (auth st) (userId st) (isAuthReady st) v.

(** The globals injected by the hosting page; [None] is
    [typeof x === 'undefined']. *)
Record Env := mkEnv {
  firebase_config : option string;   (* __firebase_config *)
  app_id : option string;            (* __app_id *)
  initial_auth_token : option string (* __initial_auth_token *)
}.

(** How an awaited promise settles. *)
Inductive Outcome :=
| Fulfilled
| Rejected (e : Err).

(** How a call of an [async] function ends: its promise resolves, or it
    rejects with an error nobody caught. *)
Inductive Completion :=
| Returned
| Threw (e : Err).

(** Observable actions of the component. *)
Inductive Effect :=
| ConsoleError (msg : string) (detail : option Err)
| OnAuthStateChanged
| SignInWithCustomToken (token : string)
| SignInAnonymously
| OnSnapshot (collectionPath : string)
| Unsubscribe (collectionPath : string)
| AddDoc (collectionPath : string) (fields : DocData)
| DeleteDoc (collectionPath : string) (docId : string).

(* ================================================================== *)
(** ** The snapshot callback (lines 81-92) *)

(** [snapshot.forEach(doc => productList.push({ id: doc.id, ...doc.data() }))]
    On the three-field documents of the model the spread adds [name],
    [timestamp] and [addedBy] and leaves [id] as [doc.id].  (In the source
    a data field named [id] would override it; statements that must hold
    there too speak of the identifiers of the products built here, not of
    the document identifiers.) *)
Definition productOfDoc (d : Doc) : Product :=
  mkProduct (doc_id d) (doc_data d).

Definition collectProducts (snapshot : list Doc) : list Product :=
  fold_left (fun productList d => productList ++ [productOfDoc d]) snapshot [].

(** [(a, b) => a.timestamp - b.timestamp] *)
Definition byTimestamp (a b : Product) : Z :=
  (timestamp (product_data a) - timestamp (product_data b))%Z.

Definition onSnapshotNext (snapshot : list Doc) (st : State) : State :=
  let productList := collectProducts snapshot in
  let productList := array_sort byTimestamp productList in
  setLoading false (setProducts productList st).

(** The error callback of the subscription (lines 92-95). *)
Definition onSnapshotError (e : Err) (st : State) : State * list Effect :=
  (setLoading false st, [ConsoleError "Error getting real-time updates:" (Some e)]).

(* ================================================================== *)
(** ** Startup and sign-in (lines 24-68) *)

(** What the SDK does inside the [try] block of the mount effect: every
    call returns, or one of [JSON.parse], [initializeApp], [getFirestore],
    [getAuth] throws (before the handles are stored), or
    [onAuthStateChanged] throws (after they are stored). *)
Inductive SdkInit :=
| SdkOk
| SdkThrowsBeforeHandles (e : Err)
| SdkThrowsAtListener (e : Err).

(** The mount effect.  The third component tells whether the auth listener
    got registered. *)
Definition mountEffect (env : Env) (sdk : SdkInit) (st : State)
  : State * list Effect * bool :=
  match firebase_config env, app_id env with
  | Some cfg, Some _ =>
      match sdk with
      | SdkThrowsBeforeHandles e =>
          (st, [ConsoleError "Failed to initialize Firebase:" (Some e)], false)
      | SdkThrowsAtListener e =>
          (setAuth (Some (mkAuth cfg)) (setDb (Some (mkFirestore cfg)) st),
           [ConsoleError "Failed to initialize Firebase:" (Some e)], false)
      | SdkOk =>
          (setAuth (Some (mkAuth cfg)) (setDb (Some (mkFirestore cfg)) st),
           [OnAuthStateChanged], true)
      end
  | _, _ =>
      (setLoading false st,
       [ConsoleError "Firebase config or app ID not found." None], false)
  end.

(** A suspended [async] function: which [await] it is parked at. *)
Inductive Pending :=
| PendingSignIn
| PendingAdd
| PendingRemove.

(** The auth listener (lines 41-57), up to its [await]. *)
Definition authStateChanged (env : Env) (user : option User) (st : State)
  : State * list Effect * option Pending :=
  match user with
  | Some u =>
      (setLoading false (setIsAuthReady true (setUserId (Some (uid u)) st)),
       [], None)
  | None =>
      match initial_auth_token env with
      | Some token => (st, [SignInWithCustomToken token], Some PendingSignIn)
      | None => (st, [SignInAnonymously], Some PendingSignIn)
      end
  end.

(** The rest of the auth listener: nothing follows the [await], and no
    [try] surrounds it inside the listener, so a rejection leaves the
    listener's own promise rejected. *)
Definition authStateChangedSettle (o : Outcome) (st : State)
  : State * list Effect * Completion :=
  match o with
  | Fulfilled => (st, [], Returned)
  | Rejected e => (st, [], Threw e)
  end.

(* ================================================================== *)
(** ** The subscription effect (lines 71-100) *)

Definition isSome {A : Type} (o : option A) : bool :=
  match o with Some _ => true | None => false end.

(** [typeof __app_id !== 'undefined' ? __app_id : 'default-app-id'] *)
Definition appIdOrDefault (env : Env) : string :=
  match app_id env with Some a => a | None => "default-app-id" end.

(** [`/artifacts/${appId}/public/data/bakeryOrders`] *)
Definition bakeryOrdersPath (appId : string) : string :=
  "/artifacts/" ++ appId ++ "/public/data/bakeryOrders".

(** The body of the effect; the third component is the path of the
    subscription it opened, if any. *)
Definition subscriptionEffect (env : Env) (st : State)
  : State * list Effect * option string :=
  if isAuthReady st && isSome (db st) then
    let appId := appIdOrDefault env in
    let collectionPath := bakeryOrdersPath appId in
    (setLoading true st, [OnSnapshot collectionPath], Some collectionPath)
  else (st, [], None).

(* ================================================================== *)
(** ** The write handlers (lines 103-145) *)

(** [handleAddProduct], up to its [await]; [now] is [Date.now()]. *)
Definition handleAddProduct (env : Env) (now : Z) (product : CatalogEntry)
  (st : State) : State * list Effect * option Pending :=
  if negb (isSome (db st)) || negb (isAuthReady st) then
    (st, [ConsoleError "Database not ready or not authenticated." None], None)
  else
    let st := setLoading true st in
    let appId := appIdOrDefault env in
    let collectionPath := bakeryOrdersPath appId in
    (st,
     [AddDoc collectionPath
        (mkDocData (item_name product) now (userId st))],
     Some PendingAdd).

(** [handleAddProduct], after its [await]. *)
Definition handleAddProductSettle (o : Outcome) (st : State)
  : State * list Effect * Completion :=
  match o with
  | Fulfilled => (setLoading false st, [], Returned)
  | Rejected e =>
      (setLoading false st,
       [ConsoleError "Error adding document: " (Some e)], Returned)
  end.

(** [handleRemoveProduct], up to its [await]. *)
Definition handleRemoveProduct (env : Env) (id : string) (st : State)
  : State * list Effect * option Pending :=
  if negb (isSome (db st)) || negb (isAuthReady st) then
    (st, [ConsoleError "Database not ready or not authenticated." None], None)
  else
    let st := setLoading true st in
    let appId := appIdOrDefault env in
    let collectionPath := bakeryOrdersPath appId in
    (st, [DeleteDoc collectionPath id], Some PendingRemove).

(** [handleRemoveProduct], after its [await]. *)
Definition handleRemoveProductSettle (o : Outcome) (st : State)
  : State * list Effect * Completion :=
  match o with
  | Fulfilled => (setLoading false st, [], Returned)
  | Rejected e =>
      (setLoading false st,
       [ConsoleError "Error removing document: " (Some e)], Returned)
  end.

(** Resuming a suspended function with the outcome of what it awaited. *)
Definition resume (p : Pending) (o : Outcome) (st : State)
  : State * list Effect * Completion :=
  match p with
  | PendingSignIn => authStateChangedSettle o st
  | PendingAdd => handleAddProductSettle o st
  | PendingRemove => handleRemoveProductSettle o st
  end.

(** A whole call of a handler whose awaited promise settles with [o]
    before anything else happens: the state and the effects at the end,
    and how the handler's own promise completes. *)
Definition finish (o : Outcome)
  (r : State * list Effect * option Pending)
  : State * list Effect * Completion :=
  match r with
  | (st, effs, None) => (st, effs, Returned)
  | (st, effs, Some p) =>
      let '(st', effs', c) := resume p o st in (st', effs ++ effs', c)
  end.

Definition callHandleAddProduct (env : Env) (now : Z)
  (product : CatalogEntry) (o : Outcome) (st : State)
  : State * list Effect * Completion :=
  finish o (handleAddProduct env now product st).

Definition callHandleRemoveProduct (env : Env) (id : string)
  (o : Outcome) (st : State) : State * list Effect * Completion :=
  finish o (handleRemoveProduct env id st).

(* ================================================================== *)
(** ** Render (lines 148-204) *)

(** One row of the grid: its React key, the text of its [span], the
    argument its button passes to [handleRemoveProduct], and the
    [aria-label] of that button. *)
Record Row := mkRow {
  row_key : string;
  row_text : string;
  row_remove : string;
  row_aria_label : string
}.

Inductive Grid :=
| EmptyState (message : string)
| Rows (rows : list Row).

(** One button of the right-hand side: its key, its text and the catalog
    entry its click passes to [handleAddProduct]. *)
Record AddButton := mkAddButton {
  button_key : string;
  button_text : string;
  button_item : CatalogEntry
}.

Record View := mkView {
  overlay : bool;
  shownUserId : option string;
  grid : Grid;
  addButtons : list AddButton
}.

Definition renderRow (product : Product) : Row :=
  mkRow (product_id product)
        (name (product_data product))
        (product_id product)
        ("Remove " ++ name (product_data product)).

Definition render (st : State) : View :=
  mkView
    (loading st)
    (userId st)
    (if Nat.eqb (List.length (products st)) 0
     then EmptyState "No items in the list. Add some!"
     else Rows (map renderRow (products st)))
    (map (fun item => mkAddButton (item_id item) (item_name item) item)
         bakeryItems).

(* ================================================================== *)
(** ** The component in its environment

    The browser delivers events one at a time (a single event loop).  A
    [World] is the component state together with what the runtime holds
    for it: the effects performed so far, the suspended [async] functions,
    the rejections nobody handled, and which listeners are registered. *)

Record World := mkWorld {
  app : State;
  trace : list Effect;
  inflight : list Pending;
  unhandled : list Err;
  mounted : bool;
  authListener : bool;
  subscription : option string
}.

Definition initialWorld : World :=
  mkWorld initialState [] [] [] false false None.

Inductive Event :=
| EvMount (sdk : SdkInit)                (* first commit: the mount effect runs *)
| EvAuthState (user : option User)       (* the auth listener is called *)
| EvSettle (k : nat) (o : Outcome)       (* the k-th awaited promise settles *)
| EvSnapshot (snapshot : list Doc)       (* the snapshot listener is called *)
| EvSnapshotError (e : Err)              (* its error callback is called *)
| EvClickAdd (i : nat) (now : Z)         (* click on the i-th catalog button *)
| EvClickRemove (k : nat).               (* click on the X of the k-th row *)

(** An event can only happen when something is there to receive it. *)
Definition enabled (w : World) (ev : Event) : bool :=
  match ev with
  | EvMount _ => negb (mounted w)
  | EvAuthState _ => authListener w
  | EvSettle k _ => Nat.ltb k (List.length (inflight w))
  | EvSnapshot _ => isSome (subscription w)
  | EvSnapshotError _ => isSome (subscription w)
  | EvClickAdd i _ => mounted w && Nat.ltb i (List.length bakeryItems)
  | EvClickRemove k => mounted w && Nat.ltb k (List.length (products (app w)))
  end.

Definition optionToList {A : Type} (o : option A) : list A :=
  match o with Some a => [a] | None => [] end.

Definition thrown (c : Completion) : list Err :=
  match c with Returned => [] | Threw e => [e] end.

Fixpoint removeNth {A : Type} (k : nat) (l : list A) : list A :=
  match l, k with
  | [], _ => []
  | _ :: l', O => l'
  | x :: l', S k' => x :: removeNth k' l'
  end.

(** The callback that the event runs. *)
Definition fire (env : Env) (w : World) (ev : Event) : World :=
  match ev with
  | EvMount sdk =>
      let '(st, effs, listening) := mountEffect env sdk (app w) in
      mkWorld st (trace w ++ effs) (inflight w) (unhandled w)
              true listening (subscription w)
  | EvAuthState user =>
      let '(st, effs, p) := authStateChanged env user (app w) in
      mkWorld st (trace w ++ effs) (inflight w ++ optionToList p)
              (unhandled w) (mounted w) (authListener w) (subscription w)
  | EvSettle k o =>
      match nth_error (inflight w) k with
      | Some p =>
          let '(st, effs, c) := resume p o (app w) in
          mkWorld st (trace w ++ effs) (removeNth k (inflight w))
                  (unhandled w ++ thrown c)
                  (mounted w) (authListener w) (subscription w)
      | None => w
      end
  | EvSnapshot snapshot =>
      mkWorld (onSnapshotNext snapshot (app w)) (trace w) (inflight w)
              (unhandled w) (mounted w) (authListener w) (subscription w)
  | EvSnapshotError e =>
      let '(st, effs) := onSnapshotError e (app w) in
      mkWorld st (trace w ++ effs) (inflight w) (unhandled w)
              (mounted w) (authListener w) (subscription w)
  | EvClickAdd i now =>
      match nth_error bakeryItems i with
      | Some item =>
          let '(st, effs, p) := handleAddProduct env now item (app w) in
          mkWorld st (trace w ++ effs) (inflight w ++ optionToList p)
                  (unhandled w) (mounted w) (authListener w) (subscription w)
      | None => w
      end
  | EvClickRemove k =>
      match nth_error (products (app w)) k with
      | Some product =>
          let '(st, effs, p) :=
            handleRemoveProduct env (product_id product) (app w) in
          mkWorld st (trace w ++ effs) (inflight w ++ optionToList p)
                  (unhandled w) (mounted w) (authListener w) (subscription w)
      | None => w
      end
  end.

Definition handleEqb (a b : option Firestore) : bool :=
  match a, b with
  | None, None => true
  | Some x, Some y => String.eqb (firestore_config x) (firestore_config y)
  | _, _ => false
  end.

(** The dependency array [[isAuthReady, db]] of the subscription effect. *)
Definition depsChanged (old new : State) : bool :=
  negb (Bool.eqb (isAuthReady old) (isAuthReady new))
  || negb (handleEqb (db old) (db new)).

(** After the commit that follows a callback, React re-runs the
    subscription effect when one of its dependencies changed: first the
    cleanup of the previous run, then the body.  (On the very first commit
    the body also runs, on [initialState], where it does nothing.) *)
Definition rerunSubscription (env : Env) (old : State) (w : World) : World :=
  if depsChanged old (app w) then
    let cleanup := map Unsubscribe (optionToList (subscription w)) in
    let '(st, effs, sub) := subscriptionEffect env (app w) in
    mkWorld st (trace w ++ cleanup ++ effs) (inflight w) (unhandled w)
            (mounted w) (authListener w) sub
  else w.

(** One turn of the event loop; an event that is not enabled does not
    happen. *)
Definition step (env : Env) (w : World) (ev : Event) : World :=
  if enabled w ev then rerunSubscription env (app w) (fire env w ev) else w.

Definition run (env : Env) (w : World) (evs : list Event) : World :=
  fold_left (step env) evs w.

(* ================================================================== *)
(** ** Vocabulary of the specification *)

(** The collection path a data-service call addresses. *)
Definition callPath (e : Effect) : option string :=
  match e with
  | OnSnapshot p => Some p
  | AddDoc p _ => Some p
  | DeleteDoc p _ => Some p
  | _ => None
  end.

Definition isAddDoc (e : Effect) : bool :=
  match e with AddDoc _ _ => true | _ => false end.

Definition isDeleteDoc (e : Effect) : bool :=
  match e with DeleteDoc _ _ => true | _ => false end.

Definition isSignIn (e : Effect) : bool :=
  match e with
  | SignInWithCustomToken _ => true
  | SignInAnonymously => true
  | _ => false
  end.

Definition isConsoleError (e : Effect) : bool :=
  match e with ConsoleError _ _ => true | _ => false end.

Definition isWrite (p : Pending) : bool :=
  match p with PendingAdd => true | PendingRemove => true | PendingSignIn => false end.

(** The readiness precondition of the write handlers, [db && isAuthReady]. *)
Definition ready (st : State) : bool :=
  isSome (db st) && isAuthReady st.

Section StableSort.

Context {A : Type}.
Variable key : A -> Z.

(** [out] is a stable sort of [l] by [key] ascending: it is ordered by
    key, and for every key value the elements carrying it are those of
    [l], in the order they have in [l]. *)
Definition StableSortOf (l out : list A) : Prop :=
  StronglySorted (fun a b => (key a <= key b)%Z) out
  /\ forall k, filter (fun a => (key a =? k)%Z) out
             = filter (fun a => (key a =? k)%Z) l.

End StableSort.

(** A comparator of the shape [(a, b) => key(a) - key(b)]. *)
Definition compareByKey {A : Type} (key : A -> Z) (a b : A) : Z :=
  (key a - key b)%Z.

Definition productTimestamp (p : Product) : Z := timestamp (product_data p).

(** The rows the grid shows (none when it shows the empty-state text). *)
Definition shownRows (v : View) : list Row :=
  match grid v with
  | EmptyState _ => []
  | Rows rows => rows
  end.

(** A sequence of insert calls, each with the catalog entry clicked and
    the value [Date.now()] had, every write being accepted before the
    next click. *)
Fixpoint insertAll (env : Env) (calls : list (CatalogEntry * Z)) (st : State)
  : State * list Effect :=
  match calls with
  | [] => (st, [])
  | (product, now) :: rest =>
      let '(st1, effs1, _) :=
        callHandleAddProduct env now product Fulfilled st in
      let '(st2, effs2) := insertAll env rest st1 in
      (st2, effs1 ++ effs2)
  end.

(** The documents the add-document calls of a trace wrote. *)
Definition writtenFields (effs : list Effect) : list DocData :=
  flat_map (fun e => match e with AddDoc _ fields => [fields] | _ => [] end)
           effs.

(** The path as the specification writes it,
    [{deploymentId}/public/data/bakeryOrders]. *)
Definition pathAsStated (deploymentId : string) : string :=
  deploymentId ++ "/public/data/bakeryOrders".

(** The insert contract as the specification writes it: every call issues
    exactly one add-document call, and when identity is not ready or the
    write is rejected the call fails with an error. *)
Definition insertAsStated (env : Env) (now : Z) (product : CatalogEntry)
  (o : Outcome) (st : State) : Prop :=
  let '(_, effs, c) := callHandleAddProduct env now product o st in
  List.length (filter isAddDoc effs) = 1
  /\ (ready st = false \/ o <> Fulfilled -> exists e, c = Threw e).

(** The loading contract as the specification writes it: the flag is true
    exactly while an insert or remove is in flight. *)
Definition loadingAsStated (w : World) : Prop :=
  loading (app w) = existsb isWrite (inflight w).

(** The data service's delete-document on a collection (an operation of
    the hosted backend, not of this repository): the document with that
    identifier is gone, the others stay, in order. *)
Definition backendDelete (id : string) (collection : list Doc) : list Doc :=
  filter (fun d => negb (String.eqb (doc_id d) id)) collection.

(** A data-service call is well addressed when its collection path is
    [/artifacts/{deploymentId}/public/data/bakeryOrders] for the
    deployment identifier the environment supplies. *)
Definition WellAddressed (env : Env) (e : Effect) : Prop :=
  forall p, callPath e = Some p ->
    exists deploymentId,
      app_id env = Some deploymentId /\ p = bakeryOrdersPath deploymentId.

(** The invariant behind well-addressed calls: a database handle only
    exists when a deployment identifier was supplied, and every call made
    so far is well addressed. *)
Definition TraceAddressed (env : Env) (w : World) : Prop :=
  (isSome (db (app w)) = true -> isSome (app_id env) = true)
  /\ Forall (WellAddressed env) (trace w).

(** A component that started without its configuration: the state is the
    initial one with the loading flag cleared, no listener is registered,
    nothing is in flight, and nothing but [console.error] ever happened. *)
Definition Inert (w : World) : Prop :=
  app w = setLoading false initialState
  /\ mounted w = true
  /\ authListener w = false
  /\ subscription w = None
  /\ inflight w = []
  /\ unhandled w = []
  /\ Forall (fun e => isConsoleError e = true) (trace w).

(** Projections of what a handler returns. *)
Definition stateOf {X : Type} (r : State * list Effect * X) : State :=
  fst (fst r).
Definition effectsOf {X : Type} (r : State * list Effect * X) : list Effect :=
  snd (fst r).
Definition resultOf {X : Type} (r : State * list Effect * X) : X :=
  snd r.

Definition notReadyMessage : Effect :=
  ConsoleError "Database not ready or not authenticated." None.

(* ================================================================== *)
(** ** Sample inputs *)

Definition envDemo : Env := mkEnv (Some "{}") (Some "demo") None.

Definition envNoConfig : Env := mkEnv None (Some "demo") None.

Definition readyState : State :=
  mkState [] (Some (mkFirestore "{}")) (Some (mkAuth "{}")) (Some "u1")
          true false.

Definition sausageRoll : CatalogEntry :=
  mkCatalogEntry "sausageRoll" "Sausage Roll".

Definition spinachRoll : CatalogEntry :=
  mkCatalogEntry "spinachRoll" "Spinach Roll".

(** Two clicks, one second apart. *)
Definition callsDemo : list (CatalogEntry * Z) :=
  [(sausageRoll, 1000%Z); (spinachRoll, 2000%Z)].

(** The two written documents, as a snapshot that lists the later one
    first. *)
Definition snapshotDemo : list Doc :=
  [ mkDoc "A1" (mkDocData "Spinach Roll" 2000 (Some "u1"));
    mkDoc "Z9" (mkDocData "Sausage Roll" 1000 (Some "u1")) ].

Definition networkError : Err := mkErr "network-request-failed".

(** A component that started, signed in and received a first, empty
    snapshot. *)
Definition worldReady : World :=
  run envDemo initialWorld
      [EvMount SdkOk; EvAuthState (Some (mkUser "u1")); EvSnapshot []].

(* ================================================================== *)
(** ** Vocabulary for the invariants of the event loop *)

Definition isOnSnapshot (e : Effect) : bool :=
  match e with OnSnapshot _ => true | _ => false end.

Definition isUnsubscribe (e : Effect) : bool :=
  match e with Unsubscribe _ => true | _ => false end.

(** The sign-in call lines 49-55 choose for this environment. *)
Definition configuredSignIn (env : Env) : Effect :=
  match initial_auth_token env with
  | Some token => SignInWithCustomToken token
  | None => SignInAnonymously
  end.

(** Both startup globals are defined (line 26). *)
Definition configPresent (env : Env) : bool :=
  isSome (firebase_config env) && isSome (app_id env).

Definition catalogNames : list string := map item_name bakeryItems.

(** What holds of every effect the component performs: a sign-in is the
    configured one, a written document names a catalog entry and carries a
    creator, and no subscription is ever cancelled. *)
Definition effectOk (env : Env) (e : Effect) : bool :=
  match e with
  | SignInWithCustomToken token =>
      match initial_auth_token env with
      | Some token' => String.eqb token token'
      | None => false
      end
  | SignInAnonymously => negb (isSome (initial_auth_token env))
  | AddDoc _ fields =>
      isSome (addedBy fields)
      && existsb (String.eqb (name fields)) catalogNames
  | Unsubscribe _ => false
  | _ => true
  end.

Definition noDataCall (e : Effect) : bool :=
  negb (isSome (callPath e)).

(** The invariant of the event loop. *)
Record Sound (env : Env) (w : World) : Prop := mkSound {
  sound_unmounted : mounted w = false -> w = initialWorld;
  sound_listener : authListener w = true -> isSome (db (app w)) = true;
  sound_ready :
    isAuthReady (app w) = true ->
    isSome (db (app w)) = true
    /\ isSome (userId (app w)) = true
    /\ subscription w = Some (bakeryOrdersPath (appIdOrDefault env));
  sound_not_ready :
    isAuthReady (app w) = false ->
    subscription w = None
    /\ products (app w) = []
    /\ existsb isWrite (inflight w) = false
    /\ forallb noDataCall (trace w) = true
    /\ (configPresent env = true -> loading (app w) = true);
  sound_subscribed :
    List.length (filter isOnSnapshot (trace w))
    = if isAuthReady (app w) then 1 else 0;
  sound_trace : forallb (effectOk env) (trace w) = true
}.

(** A component whose startup stopped short of registering the auth
    listener: the state stays [st0], nothing is registered or in flight,
    and nothing but [console.error] ever happened. *)
Definition Stalled (st0 : State) (w : World) : Prop :=
  app w = st0
  /\ mounted w = true
  /\ authListener w = false
  /\ subscription w = None
  /\ inflight w = []
  /\ unhandled w = []
  /\ Forall (fun e => isConsoleError e = true) (trace w).

(** The callbacks that write [false] to the loading flag: a snapshot, a
    subscription error, the auth listener called with a user, and the
    completion of an insert or remove; the mount effect is counted with
    them (it clears the flag when the configuration is missing). *)
Definition clearsLoading (w : World) (ev : Event) : bool :=
  match ev with
  | EvMount _ => true
  | EvAuthState (Some _) => true
  | EvAuthState None => false
  | EvSettle k _ =>
      match nth_error (inflight w) k with
      | Some p => isWrite p
      | None => false
      end
  | EvSnapshot _ => true
  | EvSnapshotError _ => true
  | EvClickAdd _ _ => false
  | EvClickRemove _ => false
  end.

(** None of the events [evs], taken in turn from [w], is one of those. *)
Fixpoint noClearingCallback (env : Env) (w : World) (evs : list Event)
  : bool :=
  match evs with
  | [] => true
  | ev :: rest =>
      negb (clearsLoading w ev) && noClearingCallback env (step env w ev) rest
  end.

(** [id] is the identifier of a product the snapshot callback built from a
    snapshot that was delivered (its event was enabled at its turn) in the
    course of [evs]. *)
Definition BuiltFromDelivered (env : Env) (evs : list Event) (id : string)
  : Prop :=
  exists (before : list Event) (snapshot : list Doc) (after : list Event),
    evs = before ++ EvSnapshot snapshot :: after
    /\ enabled (run env initialWorld before) (EvSnapshot snapshot) = true
    /\ In id (map product_id (collectProducts snapshot)).

(** A ready component that lists the two sample documents. *)
Definition worldListed : World :=
  run envDemo initialWorld
      [EvMount SdkOk; EvAuthState (Some (mkUser "u1")); EvSnapshot snapshotDemo].

(* ================================================================== *)
(** * Properties *)

(** ** Sorting by a key *)

Section SortFacts.

Context {A : Type}.
Variable key : A -> Z.

Local Abbreviation cmp := (compareByKey key).
Local Abbreviation leKey := (fun a b : A => (key a <= key b)%Z).
Local Abbreviation ltKey := (fun a b : A => (key a < key b)%Z).
Local Abbreviation hasKey k := (fun a : A => (key a =? k)%Z).

Lemma sort_insert_perm (x : A) (l : list A) :
  Permutation (x :: l) (sort_insert cmp x l).
Proof.
  induction l as [|y l IH]; simpl.
  - reflexivity.
  - destruct (0 <? cmp x y)%Z.
    + rewrite perm_swap. now apply perm_skip.
    + reflexivity.
Qed.

Lemma array_sort_perm (l : list A) : Permutation l (array_sort cmp l).
Proof.
  induction l as [|x l IH]; simpl.
  - constructor.
  - rewrite <- sort_insert_perm. now apply perm_skip.
Qed.

Lemma sort_insert_sorted (x : A) (l : list A) :
  StronglySorted leKey l -> StronglySorted leKey (sort_insert cmp x l).
Proof.
  induction 1 as [|y l Hs IH Hy]; simpl.
  - repeat constructor.
  - unfold compareByKey at 1.
    destruct (Z.ltb_spec 0 (key x - key y)) as [Hlt|Hge].
    + constructor; [exact IH|].
      apply (Permutation_Forall (sort_insert_perm x l)).
      constructor; [lia | exact Hy].
    + constructor; [now constructor|].
      constructor; [lia|].
      eapply Forall_impl; [|exact Hy]. simpl. intros; lia.
Qed.

Lemma array_sort_sorted (l : list A) :
  StronglySorted leKey (array_sort cmp l).
Proof.
  induction l as [|x l IH]; simpl.
  - constructor.
  - now apply sort_insert_sorted.
Qed.

(** Insertion never carries an element past another one of the same key. *)
Lemma sort_insert_filter (k : Z) (x : A) (l : list A) :
  filter (hasKey k) (sort_insert cmp x l) = filter (hasKey k) (x :: l).
Proof.
  induction l as [|y l IH]; [reflexivity|].
  cbn [sort_insert]. unfold compareByKey at 1.
  destruct (Z.ltb_spec 0 (key x - key y)) as [Hlt|Hge]; [|reflexivity].
  cbn [filter] in *. rewrite IH.
  destruct (Z.eqb_spec (key x) k), (Z.eqb_spec (key y) k);
    try reflexivity; lia.
Qed.

Lemma array_sort_filter (k : Z) (l : list A) :
  filter (hasKey k) (array_sort cmp l) = filter (hasKey k) l.
Proof.
  induction l as [|x l IH]; [reflexivity|].
  cbn [array_sort]. rewrite sort_insert_filter.
  cbn [filter]. now rewrite IH.
Qed.

Lemma array_sort_stable (l : list A) :
  StableSortOf key l (array_sort cmp l).
Proof.
  split; [apply array_sort_sorted | intro k; apply array_sort_filter].
Qed.

Lemma sorted_head_least (x a : A) (l : list A) :
  StronglySorted leKey (x :: l) -> In a (x :: l) -> (key x <= key a)%Z.
Proof.
  intros Hs [->|Hin]; [lia|].
  apply StronglySorted_inv in Hs as [_ Hall].
  rewrite Forall_forall in Hall. now apply Hall.
Qed.

Lemma in_of_filter_head (k : Z) (y : A) (l l' : list A) :
  (key y = k)%Z ->
  filter (hasKey k) l = filter (hasKey k) (y :: l') -> In y l.
Proof.
  intros Hk Heq. cbn [filter] in Heq.
  rewrite (proj2 (Z.eqb_eq _ _) Hk) in Heq.
  assert (Hin : In y (filter (hasKey k) l)) by (rewrite Heq; now left).
  now apply filter_In in Hin.
Qed.

(** Two lists ordered by key that agree key by key are the same list. *)
Lemma sorted_by_classes_unique (l1 l2 : list A) :
  StronglySorted leKey l1 -> StronglySorted leKey l2 ->
  (forall k, filter (hasKey k) l1 = filter (hasKey k) l2) ->
  l1 = l2.
Proof.
  revert l2. induction l1 as [|x l1 IH]; intros [|y l2] H1 H2 Hcls.
  - reflexivity.
  - specialize (Hcls (key y)). cbn [filter] in Hcls.
    rewrite Z.eqb_refl in Hcls. discriminate.
  - specialize (Hcls (key x)). cbn [filter] in Hcls.
    rewrite Z.eqb_refl in Hcls. discriminate.
  - assert (Hxy : (key x <= key y)%Z).
    { apply (sorted_head_least x y l1 H1).
      apply (in_of_filter_head (key y) y _ l2 eq_refl), Hcls. }
    assert (Hyx : (key y <= key x)%Z).
    { apply (sorted_head_least y x l2 H2).
      apply (in_of_filter_head (key x) x _ l1 eq_refl). symmetry. apply Hcls. }
    assert (Hk : key x = key y) by lia.
    assert (Htl : forall k, filter (hasKey k) l1 = filter (hasKey k) l2).
    { intro k. specialize (Hcls k). cbn [filter] in Hcls.
      rewrite <- Hk in Hcls.
      destruct (key x =? k)%Z; [now injection Hcls | exact Hcls]. }
    assert (Hhd : x = y).
    { specialize (Hcls (key x)). cbn [filter] in Hcls.
      rewrite <- Hk, Z.eqb_refl in Hcls. now injection Hcls. }
    subst y. f_equal.
    apply IH; [now apply StronglySorted_inv in H1
              | now apply StronglySorted_inv in H2 | exact Htl].
Qed.

Lemma stable_sort_unique (l out1 out2 : list A) :
  StableSortOf key l out1 -> StableSortOf key l out2 -> out1 = out2.
Proof.
  intros [S1 C1] [S2 C2]. apply sorted_by_classes_unique; trivial.
  intro k. now rewrite C1, C2.
Qed.

(** With pairwise distinct keys the order is strict. *)
Lemma sorted_nodup_strict (l : list A) :
  NoDup (map key l) -> StronglySorted leKey l -> StronglySorted ltKey l.
Proof.
  induction l as [|x l IH]; intros Hnd Hs; [constructor|].
  cbn [map] in Hnd. apply NoDup_cons_iff in Hnd as [Hnotin Hnd].
  apply StronglySorted_inv in Hs as [Hs Hall].
  constructor; [now apply IH|].
  rewrite Forall_forall in *. intros a Ha.
  specialize (Hall a Ha). simpl in Hall.
  assert (key a <> key x).
  { intro E. apply Hnotin. rewrite <- E. now apply in_map. }
  lia.
Qed.

(** A strictly ordered list is determined by its elements. *)
Lemma strict_sorted_perm_unique (l1 l2 : list A) :
  StronglySorted ltKey l1 -> StronglySorted ltKey l2 ->
  Permutation l1 l2 -> l1 = l2.
Proof.
  revert l2. induction l1 as [|x l1 IH]; intros l2 H1 H2 Hp.
  - now apply Permutation_nil in Hp.
  - destruct l2 as [|y l2].
    + symmetry in Hp. now apply Permutation_nil in Hp.
    + apply StronglySorted_inv in H1 as [H1 A1].
      apply StronglySorted_inv in H2 as [H2 A2].
      rewrite Forall_forall in A1, A2.
      assert (x = y).
      { assert (Hx : In x (y :: l2))
          by (apply (Permutation_in _ Hp); now left).
        assert (Hy : In y (x :: l1))
          by (apply (Permutation_in _ (Permutation_sym Hp)); now left).
        destruct Hx as [->|Hx]; [reflexivity|].
        destruct Hy as [->|Hy]; [reflexivity|].
        specialize (A1 y Hy). specialize (A2 x Hx). simpl in *. lia. }
      subst y. f_equal. apply IH; trivial.
      now apply Permutation_cons_inv in Hp.
Qed.

End SortFacts.

(** ** The snapshot callback *)

Lemma fold_push_map {A B : Type} (f : A -> B) (l : list A) (acc : list B) :
  fold_left (fun out a => out ++ [f a]) l acc = acc ++ map f l.
Proof.
  revert acc. induction l as [|a l IH]; intro acc; simpl.
  - now rewrite app_nil_r.
  - rewrite IH, <- app_assoc. reflexivity.
Qed.

Lemma collectProducts_map (snapshot : list Doc) :
  collectProducts snapshot = map productOfDoc snapshot.
Proof. unfold collectProducts. now rewrite fold_push_map. Qed.

Lemma products_onSnapshotNext (snapshot : list Doc) (st : State) :
  products (onSnapshotNext snapshot st)
  = array_sort (compareByKey productTimestamp) (map productOfDoc snapshot).
Proof.
  unfold onSnapshotNext. cbn [products setLoading setProducts].
  now rewrite collectProducts_map.
Qed.

Lemma shownRows_render (st : State) :
  shownRows (render st) = map renderRow (products st).
Proof.
  unfold shownRows, render. cbn [grid].
  destruct (products st); reflexivity.
Qed.

Lemma StronglySorted_map {A B : Type} (f : A -> B) (R : B -> B -> Prop)
  (l : list A) :
  StronglySorted (fun a b => R (f a) (f b)) l -> StronglySorted R (map f l).
Proof.
  induction 1 as [|a l Hs IH Ha]; simpl; constructor; trivial.
  rewrite Forall_forall in *. intros b Hb.
  apply in_map_iff in Hb as [a' [<- Ha']]. now apply Ha.
Qed.

(** ** The write handlers, when the precondition holds *)

Lemma ready_true (st : State) :
  ready st = true <-> isSome (db st) = true /\ isAuthReady st = true.
Proof. unfold ready. apply andb_true_iff. Qed.

Lemma ready_false (st : State) :
  ready st = false <-> db st = None \/ isAuthReady st = false.
Proof.
  unfold ready. rewrite andb_false_iff.
  destruct (db st); simpl; intuition congruence.
Qed.

Lemma guard_ready (st : State) :
  negb (isSome (db st)) || negb (isAuthReady st) = negb (ready st).
Proof. unfold ready. now rewrite negb_andb. Qed.

Lemma handleAddProduct_ready (env : Env) (now : Z) (product : CatalogEntry)
  (st : State) :
  ready st = true ->
  handleAddProduct env now product st
  = (setLoading true st,
     [AddDoc (bakeryOrdersPath (appIdOrDefault env))
             (mkDocData (item_name product) now (userId st))],
     Some PendingAdd).
Proof.
  intro H. unfold handleAddProduct. rewrite guard_ready, H. reflexivity.
Qed.

Lemma handleRemoveProduct_ready (env : Env) (id : string) (st : State) :
  ready st = true ->
  handleRemoveProduct env id st
  = (setLoading true st,
     [DeleteDoc (bakeryOrdersPath (appIdOrDefault env)) id],
     Some PendingRemove).
Proof.
  intro H. unfold handleRemoveProduct. rewrite guard_ready, H. reflexivity.
Qed.

Lemma handleAddProduct_not_ready (env : Env) (now : Z)
  (product : CatalogEntry) (st : State) :
  ready st = false ->
  handleAddProduct env now product st
  = (st, [ConsoleError "Database not ready or not authenticated." None], None).
Proof.
  intro H. unfold handleAddProduct. rewrite guard_ready, H. reflexivity.
Qed.

Lemma handleRemoveProduct_not_ready (env : Env) (id : string) (st : State) :
  ready st = false ->
  handleRemoveProduct env id st
  = (st, [ConsoleError "Database not ready or not authenticated." None], None).
Proof.
  intro H. unfold handleRemoveProduct. rewrite guard_ready, H. reflexivity.
Qed.

Lemma insertAll_written (env : Env) (calls : list (CatalogEntry * Z)) :
  forall st, ready st = true ->
    writtenFields (snd (insertAll env calls st))
    = map (fun c => mkDocData (item_name (fst c)) (snd c) (userId st)) calls.
Proof.
  induction calls as [|[product now] calls IH]; intros st Hr; [reflexivity|].
  cbn [insertAll]. unfold callHandleAddProduct.
  rewrite (handleAddProduct_ready env now product st Hr).
  cbn [finish resume handleAddProductSettle].
  specialize (IH (setLoading false (setLoading true st)) Hr).
  destruct (insertAll env calls (setLoading false (setLoading true st)))
    as [st2 effs2].
  cbn [snd] in *. unfold writtenFields in *.
  rewrite !flat_map_app. cbn [flat_map app]. now rewrite IH.
Qed.

(** C1. Each snapshot the backend delivers is shown as its stable sort by
    creation timestamp ascending: the product list the callback stores is a
    permutation of the snapshot's items, is the one and only stable sort of
    them by timestamp, and is what the grid lists row by row.  In
    particular, after insert calls whose timestamps are pairwise distinct,
    a snapshot holding the written items in whatever order is shown as
    those items by strictly increasing timestamp. *)
Theorem snapshot_renders_stable_sort :
  forall (snapshot : list Doc) (st : State),
    let items := map productOfDoc snapshot in
    let shown := products (onSnapshotNext snapshot st) in
    Permutation items shown
    /\ StableSortOf productTimestamp items shown
    /\ (forall out, StableSortOf productTimestamp items out -> out = shown)
    /\ shownRows (render (onSnapshotNext snapshot st)) = map renderRow shown
    /\ (forall (env : Env) (calls : list (CatalogEntry * Z)) (st0 : State),
          let inserted := writtenFields (snd (insertAll env calls st0)) in
          ready st0 = true ->
          NoDup (map snd calls) ->
          Permutation (map doc_data snapshot) inserted ->
          StronglySorted
            (fun a b => (productTimestamp a < productTimestamp b)%Z) shown
          /\ map product_data shown
             = array_sort (compareByKey timestamp) inserted).
Proof.
  intros snapshot st items shown.
  assert (Hshown : shown = array_sort (compareByKey productTimestamp) items)
    by apply products_onSnapshotNext.
  assert (Hperm : Permutation items shown)
    by (rewrite Hshown; apply array_sort_perm).
  assert (Hstable : StableSortOf productTimestamp items shown)
    by (rewrite Hshown; apply array_sort_stable).
  split; [exact Hperm|]. split; [exact Hstable|].
  split; [|split].
  - intros out Hout. exact (stable_sort_unique _ _ _ _ Hout Hstable).
  - apply shownRows_render.
  - intros env calls st0 inserted Hready Hdistinct Hsnap.
    assert (Hins : inserted
                   = map (fun c => mkDocData (item_name (fst c)) (snd c)
                                             (userId st0)) calls)
      by (apply insertAll_written; exact Hready).
    assert (Hnd : NoDup (map timestamp inserted))
      by (rewrite Hins, map_map; exact Hdistinct).
    assert (Hdata : Permutation (map product_data shown) inserted).
    { rewrite <- Hsnap, <- Hperm. unfold items.
      rewrite map_map. reflexivity. }
    assert (Hshown_nd : NoDup (map productTimestamp shown)).
    { replace (map productTimestamp shown)
        with (map timestamp (map product_data shown))
        by (rewrite map_map; reflexivity).
      eapply Permutation_NoDup; [|exact Hnd].
      apply Permutation_map. now symmetry. }
    split.
    + apply sorted_nodup_strict; [exact Hshown_nd | apply Hstable].
    + apply (strict_sorted_perm_unique timestamp).
      * apply sorted_nodup_strict.
        -- eapply Permutation_NoDup; [|exact Hnd].
           apply Permutation_map. now symmetry.
        -- apply StronglySorted_map
             with (f := product_data)
                  (R := fun a b => (timestamp a <= timestamp b)%Z).
           apply Hstable.
      * apply sorted_nodup_strict.
        -- eapply Permutation_NoDup; [|exact Hnd].
           apply Permutation_map, array_sort_perm.
        -- apply array_sort_sorted.
      * rewrite Hdata. apply array_sort_perm.
Qed.

Lemma snapshot_renders_stable_sort_witness :
  ready readyState = true
  /\ NoDup (map snd callsDemo)
  /\ Permutation (map doc_data snapshotDemo)
                 (writtenFields (snd (insertAll envDemo callsDemo readyState)))
  /\ map product_data (products (onSnapshotNext snapshotDemo readyState))
     = [ mkDocData "Sausage Roll" 1000 (Some "u1");
         mkDocData "Spinach Roll" 2000 (Some "u1") ].
Proof.
  assert (Hr : ready readyState = true) by reflexivity.
  assert (Hd : NoDup (map snd callsDemo)).
  { repeat constructor; simpl; intuition discriminate. }
  assert (Hp : Permutation (map doc_data snapshotDemo)
                 (writtenFields (snd (insertAll envDemo callsDemo readyState))))
    by apply perm_swap.
  split; [exact Hr|]. split; [exact Hd|]. split; [exact Hp|].
  destruct (snapshot_renders_stable_sort snapshotDemo readyState)
    as (_ & _ & _ & _ & Hins).
  destruct (Hins envDemo callsDemo readyState Hr Hd Hp) as [_ Heq].
  rewrite Heq. reflexivity.
Defined.

(** ** The readiness guard *)

(** C2. When identity readiness is false or the database handle is
    absent, insert and remove issue no add-document and no delete-document
    call (nor any other data-service call, and nothing is left in flight):
    all either does is log the precondition failure with
    [console.error]. *)
Theorem not_ready_logs_and_calls_nothing :
  forall (env : Env) (now : Z) (product : CatalogEntry) (id : string)
         (o : Outcome) (st : State),
    db st = None \/ isAuthReady st = false ->
    let add := callHandleAddProduct env now product o st in
    let remove := callHandleRemoveProduct env id o st in
    effectsOf add = [ConsoleError "Database not ready or not authenticated." None]
    /\ effectsOf remove
       = [ConsoleError "Database not ready or not authenticated." None]
    /\ (forall e, In e (effectsOf add ++ effectsOf remove) ->
          isAddDoc e = false /\ isDeleteDoc e = false /\ callPath e = None)
    /\ resultOf (handleAddProduct env now product st) = None
    /\ resultOf (handleRemoveProduct env id st) = None.
Proof.
  intros env now product id o st Hnot.
  apply ready_false in Hnot.
  unfold callHandleAddProduct, callHandleRemoveProduct.
  rewrite (handleAddProduct_not_ready env now product st Hnot).
  rewrite (handleRemoveProduct_not_ready env id st Hnot).
  cbn [finish effectsOf resultOf fst snd app].
  split; [reflexivity|]. split; [reflexivity|].
  split; [|split; reflexivity].
  intros e [<-|[<-|[]]]; repeat split; reflexivity.
Qed.

Lemma not_ready_logs_and_calls_nothing_witness :
  (db initialState = None \/ isAuthReady initialState = false)
  /\ effectsOf (callHandleAddProduct envDemo 1000 sausageRoll Fulfilled
                                    initialState)
     = [notReadyMessage]
  /\ effectsOf (callHandleRemoveProduct envDemo "Z9" Fulfilled initialState)
     = [notReadyMessage].
Proof.
  assert (H : db initialState = None \/ isAuthReady initialState = false)
    by (left; reflexivity).
  split; [exact H|].
  destruct (not_ready_logs_and_calls_nothing
              envDemo 1000 sausageRoll "Z9" Fulfilled initialState H)
    as (Ha & Hr & _).
  split; [exact Ha | exact Hr].
Defined.

(** C10. When the readiness precondition fails, insert and remove return
    before any state update: the component state after the call, and in
    particular the loading flag and the mirrored product list, is the state
    before it. *)
Theorem not_ready_leaves_state :
  forall (env : Env) (now : Z) (product : CatalogEntry) (id : string)
         (o : Outcome) (st : State),
    db st = None \/ isAuthReady st = false ->
    let add := stateOf (callHandleAddProduct env now product o st) in
    let remove := stateOf (callHandleRemoveProduct env id o st) in
    add = st /\ remove = st
    /\ loading add = loading st /\ products add = products st
    /\ loading remove = loading st /\ products remove = products st
    /\ stateOf (handleAddProduct env now product st) = st
    /\ stateOf (handleRemoveProduct env id st) = st.
Proof.
  intros env now product id o st Hnot.
  apply ready_false in Hnot.
  unfold callHandleAddProduct, callHandleRemoveProduct.
  rewrite (handleAddProduct_not_ready env now product st Hnot).
  rewrite (handleRemoveProduct_not_ready env id st Hnot).
  cbn [finish stateOf fst]. repeat split; reflexivity.
Qed.

Lemma not_ready_leaves_state_witness :
  (db initialState = None \/ isAuthReady initialState = false)
  /\ stateOf (callHandleAddProduct envDemo 1000 sausageRoll Fulfilled
                                  initialState)
     = initialState
  /\ stateOf (callHandleRemoveProduct envDemo "Z9" Fulfilled initialState)
     = initialState.
Proof.
  assert (H : db initialState = None \/ isAuthReady initialState = false)
    by (left; reflexivity).
  split; [exact H|].
  destruct (not_ready_leaves_state
              envDemo 1000 sausageRoll "Z9" Fulfilled initialState H)
    as (Ha & Hr & _).
  split; [exact Ha | exact Hr].
Defined.

(** ** The insert contract *)

(** The insert contract as the specification words it fails on a call made
    before identity is ready (no document is appended, and the call
    completes normally), and on a ready call whose write is rejected (the
    call still completes normally). *)
Lemma insert_as_stated_fails :
  ~ insertAsStated envDemo 1000 sausageRoll Fulfilled initialState
  /\ ~ insertAsStated envDemo 1000 sausageRoll (Rejected networkError)
                      readyState.
Proof.
  split.
  - intros [Hone _]. discriminate Hone.
  - intros [_ Hfail].
    destruct Hfail as [e He]; [right; discriminate | discriminate He].
Qed.

(** C3, amended. Insert never raises: its promise resolves whatever
    happens.  When the database handle is present and identity is ready it
    issues exactly one add-document call, carrying the entry's name, the
    current client timestamp and the current session identifier; when the
    precondition fails it issues none and logs the precondition failure;
    when the write is rejected it logs the error and issues no further
    call. *)
Theorem insert_logs_and_resolves :
  forall (env : Env) (now : Z) (product : CatalogEntry) (o : Outcome)
         (st : State),
    let call := callHandleAddProduct env now product o st in
    let write :=
      AddDoc (bakeryOrdersPath (appIdOrDefault env))
             (mkDocData (item_name product) now (userId st)) in
    resultOf call = Returned
    /\ (ready st = true -> filter isAddDoc (effectsOf call) = [write])
    /\ (ready st = false ->
          effectsOf call
          = [ConsoleError "Database not ready or not authenticated." None])
    /\ (ready st = true -> o = Fulfilled -> effectsOf call = [write])
    /\ (forall e, ready st = true -> o = Rejected e ->
          effectsOf call
          = [write; ConsoleError "Error adding document: " (Some e)]).
Proof.
  intros env now product o st call write. subst call write.
  unfold callHandleAddProduct.
  destruct (ready st) eqn:Hr.
  - rewrite (handleAddProduct_ready env now product st Hr).
    destruct o as [|e0]; cbn; repeat split; trivial; try discriminate.
    intros e _ [= ->]. reflexivity.
  - rewrite (handleAddProduct_not_ready env now product st Hr).
    cbn. repeat split; trivial; discriminate.
Qed.

Lemma insert_logs_and_resolves_witness :
  ready readyState = true
  /\ resultOf (callHandleAddProduct envDemo 1000 sausageRoll
                 (Rejected networkError) readyState) = Returned
  /\ effectsOf (callHandleAddProduct envDemo 1000 sausageRoll
                  (Rejected networkError) readyState)
     = [ AddDoc "/artifacts/demo/public/data/bakeryOrders"
                (mkDocData "Sausage Roll" 1000 (Some "u1"));
         ConsoleError "Error adding document: " (Some networkError) ].
Proof.
  assert (Hr : ready readyState = true) by reflexivity.
  split; [exact Hr|].
  destruct (insert_logs_and_resolves envDemo 1000 sausageRoll
              (Rejected networkError) readyState)
    as (Hres & _ & _ & _ & Hrej).
  split; [exact Hres|].
  exact (Hrej networkError Hr eq_refl).
Defined.

(** ** The grid *)

(** C8. An empty product list is rendered as the text
    "No items in the list. Add some!"; a non-empty one is rendered as one
    row per product instead, in the order of the list. *)
Theorem grid_empty_state_or_rows :
  forall st : State,
    (products st = [] ->
       grid (render st) = EmptyState "No items in the list. Add some!")
    /\ (products st <> [] ->
          grid (render st) = Rows (map renderRow (products st))
          /\ List.length (map renderRow (products st))
             = List.length (products st)
          /\ map row_key (map renderRow (products st))
             = map product_id (products st)).
Proof.
  intro st. unfold render. cbn [grid].
  destruct (products st) as [|p ps]; split; intro H;
    try congruence; try reflexivity.
  cbn [List.length Nat.eqb]. repeat split.
  - now rewrite length_map.
  - rewrite map_map. reflexivity.
Qed.

Lemma grid_empty_state_or_rows_witness :
  products initialState = []
  /\ grid (render initialState) = EmptyState "No items in the list. Add some!"
  /\ products (onSnapshotNext snapshotDemo readyState) <> []
  /\ grid (render (onSnapshotNext snapshotDemo readyState))
     = Rows [ mkRow "Z9" "Sausage Roll" "Z9" "Remove Sausage Roll";
              mkRow "A1" "Spinach Roll" "A1" "Remove Spinach Roll" ].
Proof.
  assert (H0 : products initialState = []) by reflexivity.
  assert (H1 : products (onSnapshotNext snapshotDemo readyState) <> [])
    by discriminate.
  split; [exact H0|].
  split; [exact (proj1 (grid_empty_state_or_rows initialState) H0)|].
  split; [exact H1|].
  exact (proj1 (proj2 (grid_empty_state_or_rows
                         (onSnapshotNext snapshotDemo readyState)) H1)).
Defined.

(** ** Removing an identifier that is not listed *)

Lemma filter_all_true {A : Type} (f : A -> bool) (l : list A) :
  (forall x, In x l -> f x = true) -> filter f l = l.
Proof.
  induction l as [|a l IH]; intro H; [reflexivity|].
  cbn [filter]. rewrite (H a (or_introl eq_refl)).
  f_equal. apply IH. intros x Hx. apply H. now right.
Qed.

Lemma backendDelete_absent (id : string) (collection : list Doc) :
  ~ In id (map doc_id collection) -> backendDelete id collection = collection.
Proof.
  intro Hnot. apply filter_all_true. intros d Hd.
  apply negb_true_iff, String.eqb_neq. intros <-.
  apply Hnot. now apply in_map.
Qed.

Lemma grid_render_products (a b : State) :
  products a = products b -> grid (render a) = grid (render b).
Proof. intro H. unfold render. cbn [grid]. now rewrite H. Qed.

Lemma callHandleRemoveProduct_products (env : Env) (id : string)
  (o : Outcome) (st : State) :
  products (stateOf (callHandleRemoveProduct env id o st)) = products st
  /\ products (stateOf (handleRemoveProduct env id st)) = products st
  /\ resultOf (callHandleRemoveProduct env id o st) = Returned.
Proof.
  unfold callHandleRemoveProduct.
  destruct (ready st) eqn:Hr.
  - rewrite (handleRemoveProduct_ready env id st Hr).
    destruct o; repeat split; reflexivity.
  - rewrite (handleRemoveProduct_not_ready env id st Hr).
    repeat split; reflexivity.
Qed.

(** C9. Removing an identifier that is not in the current product list
    changes nothing that is shown and raises nothing: the call leaves the
    product list, and so the grid, as it was, both while the delete is
    awaited and after it settled, and whether the backend accepts or rejects
    the delete the handler's promise resolves.  When the list mirrors the
    backend collection, the delete leaves that collection as it was, so the
    next snapshot shows the same list again. *)
Theorem remove_absent_id_changes_nothing :
  forall (env : Env) (id : string) (o : Outcome) (st : State),
    ~ In id (map product_id (products st)) ->
    let call := callHandleRemoveProduct env id o st in
    products (stateOf call) = products st
    /\ products (stateOf (handleRemoveProduct env id st)) = products st
    /\ grid (render (stateOf call)) = grid (render st)
    /\ resultOf call = Returned
    /\ (forall collection : list Doc,
          products st = products (onSnapshotNext collection st) ->
          backendDelete id collection = collection
          /\ products (onSnapshotNext (backendDelete id collection)
                                      (stateOf call))
             = products st).
Proof.
  intros env id o st Habsent call. subst call.
  destruct (callHandleRemoveProduct_products env id o st)
    as (Hafter & Hduring & Hres).
  split; [exact Hafter|]. split; [exact Hduring|].
  split; [now apply grid_render_products|].
  split; [exact Hres|].
  intros collection Hmirror.
  assert (Hsame : backendDelete id collection = collection).
  { apply backendDelete_absent. intro Hin. apply Habsent.
    rewrite Hmirror, products_onSnapshotNext.
    apply (Permutation_in id
             (Permutation_map product_id
                (array_sort_perm productTimestamp
                   (map productOfDoc collection)))).
    rewrite map_map. exact Hin. }
  split; [exact Hsame|].
  rewrite Hsame, Hmirror, !products_onSnapshotNext. reflexivity.
Qed.

Lemma remove_absent_id_changes_nothing_witness :
  ~ In "nope" (map product_id
                   (products (onSnapshotNext snapshotDemo readyState)))
  /\ products (stateOf (callHandleRemoveProduct envDemo "nope"
                          (Rejected networkError)
                          (onSnapshotNext snapshotDemo readyState)))
     = products (onSnapshotNext snapshotDemo readyState)
  /\ resultOf (callHandleRemoveProduct envDemo "nope"
                 (Rejected networkError)
                 (onSnapshotNext snapshotDemo readyState))
     = Returned.
Proof.
  assert (H : ~ In "nope"
                (map product_id
                     (products (onSnapshotNext snapshotDemo readyState)))).
  { simpl. intros [E|[E|[]]]; discriminate E. }
  split; [exact H|].
  destruct (remove_absent_id_changes_nothing envDemo "nope"
              (Rejected networkError)
              (onSnapshotNext snapshotDemo readyState) H)
    as (Hp & _ & _ & Hres & _).
  split; [exact Hp | exact Hres].
Defined.

(** ** The event loop *)

Lemma handleEqb_refl (h : option Firestore) : handleEqb h h = true.
Proof. destruct h; simpl; [apply String.eqb_refl | reflexivity]. Qed.

Lemma depsChanged_same_deps (old new : State) :
  isAuthReady new = isAuthReady old -> db new = db old ->
  depsChanged old new = false.
Proof.
  intros Ha Hd. unfold depsChanged.
  now rewrite Ha, Hd, Bool.eqb_reflx, handleEqb_refl.
Qed.

Lemma rerunSubscription_same_deps (env : Env) (old : State) (w : World) :
  isAuthReady (app w) = isAuthReady old -> db (app w) = db old ->
  rerunSubscription env old w = w.
Proof.
  intros Ha Hd. unfold rerunSubscription.
  now rewrite depsChanged_same_deps.
Qed.

Lemma nth_error_app_last {A : Type} (l : list A) (x : A) :
  nth_error (l ++ [x]) (List.length l) = Some x.
Proof. induction l; simpl; trivial. Qed.

Lemma removeNth_app_last {A : Type} (l : list A) (x : A) :
  removeNth (List.length l) (l ++ [x]) = l.
Proof. induction l as [|a l IH]; simpl; [reflexivity | now rewrite IH]. Qed.

Lemma ltb_length_app_last {A : Type} (l : list A) (x : A) :
  Nat.ltb (List.length l) (List.length (l ++ [x])) = true.
Proof. apply Nat.ltb_lt. rewrite length_app. simpl. lia. Qed.

(** A click on a catalog button of a ready component. *)
Lemma step_click_add_ready (env : Env) (w : World) (i : nat) (now : Z)
  (item : CatalogEntry) :
  mounted w = true -> ready (app w) = true ->
  nth_error bakeryItems i = Some item ->
  step env w (EvClickAdd i now)
  = mkWorld (setLoading true (app w))
            (trace w
             ++ [AddDoc (bakeryOrdersPath (appIdOrDefault env))
                        (mkDocData (item_name item) now (userId (app w)))])
            (inflight w ++ [PendingAdd]) (unhandled w)
            (mounted w) (authListener w) (subscription w).
Proof.
  intros Hm Hr Hi. unfold step.
  assert (Hen : enabled w (EvClickAdd i now) = true).
  { cbn [enabled]. rewrite Hm. apply Nat.ltb_lt.
    apply nth_error_Some. congruence. }
  rewrite Hen. cbn [fire]. rewrite Hi.
  rewrite (handleAddProduct_ready env now item (app w) Hr).
  now apply rerunSubscription_same_deps.
Qed.

(** A click on the X of a row of a ready component. *)
Lemma step_click_remove_ready (env : Env) (w : World) (k : nat)
  (product : Product) :
  mounted w = true -> ready (app w) = true ->
  nth_error (products (app w)) k = Some product ->
  step env w (EvClickRemove k)
  = mkWorld (setLoading true (app w))
            (trace w
             ++ [DeleteDoc (bakeryOrdersPath (appIdOrDefault env))
                           (product_id product)])
            (inflight w ++ [PendingRemove]) (unhandled w)
            (mounted w) (authListener w) (subscription w).
Proof.
  intros Hm Hr Hk. unfold step.
  assert (Hen : enabled w (EvClickRemove k) = true).
  { cbn [enabled]. rewrite Hm. apply Nat.ltb_lt.
    apply nth_error_Some. congruence. }
  rewrite Hen. cbn [fire]. rewrite Hk.
  rewrite (handleRemoveProduct_ready env (product_id product) (app w) Hr).
  now apply rerunSubscription_same_deps.
Qed.

(** The write that was started last settles. *)
Lemma step_settle_last_write (env : Env) (w : World) (p : Pending)
  (o : Outcome) (pending : list Pending) :
  isWrite p = true -> inflight w = pending ++ [p] ->
  let w' := step env w (EvSettle (List.length pending) o) in
  loading (app w') = false /\ inflight w' = pending
  /\ products (app w') = products (app w).
Proof.
  intros Hw Hin. unfold step.
  cbn [enabled]. rewrite Hin, ltb_length_app_last.
  cbn [fire]. rewrite Hin, nth_error_app_last, removeNth_app_last.
  destruct p; try discriminate Hw; destruct o; cbn [resume
    handleAddProductSettle handleRemoveProductSettle];
    rewrite rerunSubscription_same_deps by reflexivity;
    repeat split; reflexivity.
Qed.

(** ** The loading flag *)

(** The loading contract as the specification words it fails before
    anything was clicked (the flag starts out true with nothing in flight),
    and fails when a snapshot is delivered while an insert is still
    awaited (the flag is false with an insert in flight). *)
Lemma loading_as_stated_fails :
  ~ loadingAsStated initialWorld
  /\ ~ loadingAsStated
        (run envDemo initialWorld
           [ EvMount SdkOk;
             EvAuthState (Some (mkUser "u1"));
             EvSnapshot [];
             EvClickAdd 0 1000;
             EvSnapshot [mkDoc "Z9" (mkDocData "Sausage Roll" 1000 (Some "u1"))] ]).
Proof.
  split; intro H; discriminate H.
Qed.

(** ** The collection path *)

(** The path as the specification writes it is not the path the calls
    carry: with deployment identifier [demo] an insert addresses
    [/artifacts/demo/public/data/bakeryOrders]. *)
Lemma path_as_stated_fails :
  effectsOf (handleAddProduct envDemo 1000 sausageRoll readyState)
  = [ AddDoc "/artifacts/demo/public/data/bakeryOrders"
             (mkDocData "Sausage Roll" 1000 (Some "u1")) ]
  /\ "/artifacts/demo/public/data/bakeryOrders" <> pathAsStated "demo".
Proof.
  split; [reflexivity | discriminate].
Qed.

Lemma WellAddressed_no_path (env : Env) (e : Effect) :
  callPath e = None -> WellAddressed env e.
Proof. intros H p Hp. congruence. Qed.

Lemma WellAddressed_path (env : Env) (e : Effect) :
  isSome (app_id env) = true ->
  callPath e = Some (bakeryOrdersPath (appIdOrDefault env)) ->
  WellAddressed env e.
Proof.
  intros Hid He p Hp. unfold appIdOrDefault in He.
  destruct (app_id env) as [d|]; [|discriminate Hid].
  exists d. split; congruence.
Qed.

Lemma ready_isSome_db (st : State) : ready st = true -> isSome (db st) = true.
Proof. intro H. now apply ready_true in H. Qed.

Create HintDb addressed.

#[local] Hint Resolve WellAddressed_no_path WellAddressed_path
  ready_isSome_db : addressed.

Ltac extend_trace :=
  apply Forall_app; split; [assumption|];
  repeat constructor; eauto with addressed.

Lemma fire_addressed (env : Env) (w : World) (ev : Event) :
  TraceAddressed env w -> TraceAddressed env (fire env w ev).
Proof.
  intros [Hdb Htr]. unfold TraceAddressed.
  destruct ev as [sdk|user|k o|snapshot|e|i now|k]; cbn [fire].
  - unfold mountEffect.
    destruct (firebase_config env) as [cfg|], (app_id env) as [d|] eqn:Hd;
      try destruct sdk; split; cbn; trivial; try extend_trace.
  - unfold authStateChanged.
    destruct user as [u|]; [|destruct (initial_auth_token env)];
      split; cbn; trivial; extend_trace.
  - destruct (nth_error (inflight w) k) as [p|]; [|now split].
    destruct p, o; split; cbn; trivial; extend_trace.
  - split; cbn; trivial.
  - split; cbn; trivial. extend_trace.
  - destruct (nth_error bakeryItems i) as [item|]; [|now split].
    destruct (ready (app w)) eqn:Hr.
    + rewrite (handleAddProduct_ready env now item (app w) Hr).
      split; cbn; trivial. extend_trace.
    + rewrite (handleAddProduct_not_ready env now item (app w) Hr).
      split; cbn; trivial. extend_trace.
  - destruct (nth_error (products (app w)) k) as [product|]; [|now split].
    destruct (ready (app w)) eqn:Hr.
    + rewrite (handleRemoveProduct_ready env _ (app w) Hr).
      split; cbn; trivial. extend_trace.
    + rewrite (handleRemoveProduct_not_ready env _ (app w) Hr).
      split; cbn; trivial. extend_trace.
Qed.

Lemma rerunSubscription_addressed (env : Env) (old : State) (w : World) :
  TraceAddressed env w -> TraceAddressed env (rerunSubscription env old w).
Proof.
  intros [Hdb Htr]. unfold rerunSubscription.
  destruct (depsChanged old (app w)); [|now split].
  unfold subscriptionEffect.
  destruct (isAuthReady (app w) && isSome (db (app w))) eqn:Hsub.
  - apply andb_true_iff in Hsub as [_ Hsome].
    split; cbn; trivial.
    apply Forall_app; split; [assumption|].
    apply Forall_app; split.
    + destruct (subscription w); repeat constructor;
        now apply WellAddressed_no_path.
    + repeat constructor. eauto with addressed.
  - split; cbn; trivial.
    apply Forall_app; split; [assumption|].
    rewrite app_nil_r.
    destruct (subscription w); repeat constructor;
      now apply WellAddressed_no_path.
Qed.

Lemma step_addressed (env : Env) (w : World) (ev : Event) :
  TraceAddressed env w -> TraceAddressed env (step env w ev).
Proof.
  intro H. unfold step. destruct (enabled w ev); [|exact H].
  now apply rerunSubscription_addressed, fire_addressed.
Qed.

Lemma run_addressed (env : Env) (evs : list Event) :
  forall w, TraceAddressed env w -> TraceAddressed env (run env w evs).
Proof.
  induction evs as [|ev evs IH]; intros w H; [exact H|].
  apply IH. now apply step_addressed.
Qed.

(** C5, amended. Every data-service call the component ever makes
    (subscribe, insert, remove) addresses the collection at
    [/artifacts/{deploymentId}/public/data/bakeryOrders], where
    [deploymentId] is the identifier the environment supplied. *)
Theorem calls_address_artifacts_path :
  forall (env : Env) (evs : list Event) (e : Effect) (p : string),
    In e (trace (run env initialWorld evs)) ->
    callPath e = Some p ->
    exists deploymentId,
      app_id env = Some deploymentId
      /\ p = ("/artifacts/" ++ deploymentId
               ++ "/public/data/bakeryOrders")%string.
Proof.
  intros env evs e p Hin Hp.
  assert (Hinv : TraceAddressed env (run env initialWorld evs)).
  { apply run_addressed. split; [discriminate | constructor]. }
  destruct Hinv as [_ Hall]. rewrite Forall_forall in Hall.
  exact (Hall e Hin p Hp).
Qed.

Lemma calls_address_artifacts_path_witness :
  In (DeleteDoc "/artifacts/demo/public/data/bakeryOrders" "Z9")
     (trace (run envDemo initialWorld
               [ EvMount SdkOk;
                 EvAuthState (Some (mkUser "u1"));
                 EvSnapshot snapshotDemo;
                 EvClickRemove 0 ]))
  /\ exists deploymentId,
       app_id envDemo = Some deploymentId
       /\ "/artifacts/demo/public/data/bakeryOrders"
          = ("/artifacts/" ++ deploymentId
               ++ "/public/data/bakeryOrders")%string.
Proof.
  assert (Hin : In (DeleteDoc "/artifacts/demo/public/data/bakeryOrders" "Z9")
                   (trace (run envDemo initialWorld
                             [ EvMount SdkOk;
                               EvAuthState (Some (mkUser "u1"));
                               EvSnapshot snapshotDemo;
                               EvClickRemove 0 ]))).
  { right. right. left. reflexivity. }
  split; [exact Hin|].
  exact (calls_address_artifacts_path envDemo _ _ _ Hin eq_refl).
Defined.

(** ** Sign-in failure *)

(** C6, what the code does when sign-in fails.  With the configuration
    present, the listener called with no user starts one sign-in; when that
    sign-in is rejected nothing is written with [console.error]: the
    listener has no [try] of its own, and the [try] of the mount effect was
    left long before, so the rejection ends up as the listener's own
    unhandled rejection.  No second sign-in is started, readiness stays
    false, the loading flag stays set, and a later insert only logs the
    precondition failure. *)
Theorem signin_rejection_is_not_logged :
  forall (cfg appId : string) (token : option string) (e : Err),
    let env := mkEnv (Some cfg) (Some appId) token in
    let w := run env initialWorld
                 [EvMount SdkOk; EvAuthState None; EvSettle 0 (Rejected e)] in
    filter isConsoleError (trace w) = []
    /\ unhandled w = [e]
    /\ List.length (filter isSignIn (trace w)) = 1
    /\ inflight w = []
    /\ isAuthReady (app w) = false
    /\ loading (app w) = true
    /\ forall i now,
         trace (step env w (EvClickAdd i now)) = trace w
         \/ trace (step env w (EvClickAdd i now))
            = trace w
              ++ [ConsoleError "Database not ready or not authenticated." None].
Proof.
  intros cfg appId token e env w.
  set (st1 := setAuth (Some (mkAuth cfg))
                (setDb (Some (mkFirestore cfg)) initialState)).
  set (signIn := match token with
                 | Some tok => SignInWithCustomToken tok
                 | None => SignInAnonymously
                 end).
  assert (H1 : step env initialWorld (EvMount SdkOk)
               = mkWorld st1 [OnAuthStateChanged] [] [] true true None)
    by reflexivity.
  assert (H2 : step env (mkWorld st1 [OnAuthStateChanged] [] [] true true None)
                    (EvAuthState None)
               = mkWorld st1 [OnAuthStateChanged; signIn] [PendingSignIn] []
                         true true None).
  { unfold step. cbn [enabled authListener fire app].
    subst env signIn. unfold authStateChanged. cbn [initial_auth_token].
    destruct token; rewrite rerunSubscription_same_deps; reflexivity. }
  assert (H3 : step env (mkWorld st1 [OnAuthStateChanged; signIn]
                                 [PendingSignIn] [] true true None)
                    (EvSettle 0 (Rejected e))
               = mkWorld st1 [OnAuthStateChanged; signIn] [] [e]
                         true true None).
  { unfold step. cbn [enabled inflight List.length Nat.ltb Nat.leb fire
                        nth_error resume authStateChangedSettle app].
    rewrite rerunSubscription_same_deps; reflexivity. }
  assert (Hw : w = mkWorld st1 [OnAuthStateChanged; signIn] [] [e]
                           true true None).
  { subst w. unfold run. cbn [fold_left]. now rewrite H1, H2, H3. }
  rewrite Hw. cbn [trace unhandled inflight app].
  split; [subst signIn; destruct token; reflexivity|].
  split; [reflexivity|].
  split; [subst signIn; destruct token; reflexivity|].
  split; [reflexivity|]. split; [reflexivity|]. split; [reflexivity|].
  intros i now. unfold step. cbn [enabled mounted andb].
  destruct (Nat.ltb i (List.length bakeryItems)) eqn:Hlt;
    [right | left; reflexivity].
  cbn [fire]. destruct (nth_error bakeryItems i) as [item|] eqn:Hnth.
  - cbn [app].
    rewrite (handleAddProduct_not_ready env now item st1 eq_refl).
    rewrite rerunSubscription_same_deps; reflexivity.
  - apply Nat.ltb_lt in Hlt. apply nth_error_None in Hnth. lia.
Qed.

(** The same at the sample input: anonymous sign-in rejected with a network
    error. *)
Example signin_rejection_sample :
  let w := run envDemo initialWorld
               [ EvMount SdkOk; EvAuthState None;
                 EvSettle 0 (Rejected networkError) ] in
  trace w = [OnAuthStateChanged; SignInAnonymously]
  /\ unhandled w = [networkError]
  /\ isAuthReady (app w) = false.
Proof. repeat split; reflexivity. Qed.

(** ** Startup without configuration *)

Lemma mount_without_config (env : Env) (sdk : SdkInit) (st : State) :
  firebase_config env = None \/ app_id env = None ->
  mountEffect env sdk st
  = (setLoading false st,
     [ConsoleError "Firebase config or app ID not found." None], false).
Proof.
  unfold mountEffect.
  intros [H|H]; rewrite H; [|destruct (firebase_config env)]; reflexivity.
Qed.

Lemma step_inert (env : Env) (w : World) (ev : Event) :
  Inert w -> Inert (step env w ev).
Proof.
  intros Hw. pose proof Hw as (Happ & Hm & Hl & Hs & Hi & Hu & Htr).
  assert (Hnr : ready (app w) = false) by (rewrite Happ; reflexivity).
  unfold step.
  destruct (enabled w ev) eqn:Hen; [|exact Hw].
  destruct ev as [sdk|user|k o|snapshot|e|i now|k]; cbn [enabled] in Hen.
  - rewrite Hm in Hen. discriminate Hen.
  - rewrite Hl in Hen. discriminate Hen.
  - rewrite Hi in Hen. discriminate Hen.
  - rewrite Hs in Hen. discriminate Hen.
  - rewrite Hs in Hen. discriminate Hen.
  - cbn [fire]. destruct (nth_error bakeryItems i) as [item|].
    + rewrite (handleAddProduct_not_ready env now item (app w) Hnr).
      rewrite rerunSubscription_same_deps by reflexivity.
      repeat split; cbn; trivial.
      * now rewrite Hi.
      * apply Forall_app; split; [assumption | repeat constructor].
    + rewrite rerunSubscription_same_deps by reflexivity. exact Hw.
  - rewrite Happ in Hen. cbn in Hen.
    rewrite andb_false_r in Hen. discriminate Hen.
Qed.

Lemma run_inert (env : Env) (evs : list Event) :
  forall w, Inert w -> Inert (run env w evs).
Proof.
  induction evs as [|ev evs IH]; intros w H; [exact H|].
  apply IH. now apply step_inert.
Qed.

(** C7. When the backend configuration or the deployment identifier is
    absent, startup logs the condition and clears the loading flag, and the
    component stays inert whatever happens next: no database or auth handle
    is ever created, readiness never becomes true, no listener is
    registered, and nothing but [console.error] is ever called. *)
Theorem missing_config_leaves_component_inert :
  forall (env : Env) (sdk : SdkInit) (evs : list Event),
    firebase_config env = None \/ app_id env = None ->
    let started := step env initialWorld (EvMount sdk) in
    let w := run env started evs in
    trace started = [ConsoleError "Firebase config or app ID not found." None]
    /\ loading (app started) = false
    /\ db (app w) = None
    /\ auth (app w) = None
    /\ isAuthReady (app w) = false
    /\ loading (app w) = false
    /\ authListener w = false
    /\ subscription w = None
    /\ (forall e, In e (trace w) -> isConsoleError e = true).
Proof.
  intros env sdk evs Hmissing started w.
  assert (Hstarted :
            started
            = mkWorld (setLoading false initialState)
                [ConsoleError "Firebase config or app ID not found." None]
                [] [] true false None).
  { subst started. unfold step. cbn [enabled initialWorld mounted negb fire app].
    rewrite (mount_without_config env sdk initialState Hmissing).
    reflexivity. }
  assert (Hinert : Inert w).
  { subst w. apply run_inert. rewrite Hstarted.
    repeat split; try reflexivity. repeat constructor. }
  destruct Hinert as (Happ & _ & Hl & Hs & _ & _ & Htr).
  rewrite Hstarted, Happ.
  repeat split; try reflexivity; try assumption.
  rewrite Forall_forall in Htr. exact Htr.
Qed.

Lemma missing_config_leaves_component_inert_witness :
  (firebase_config envNoConfig = None \/ app_id envNoConfig = None)
  /\ isAuthReady
       (app (run envNoConfig
               (step envNoConfig initialWorld (EvMount SdkOk))
               [EvAuthState (Some (mkUser "u1")); EvClickAdd 0 1000;
                EvSnapshot snapshotDemo])) = false
  /\ trace (step envNoConfig initialWorld (EvMount SdkOk))
     = [ConsoleError "Firebase config or app ID not found." None].
Proof.
  assert (H : firebase_config envNoConfig = None
              \/ app_id envNoConfig = None) by (left; reflexivity).
  split; [exact H|].
  destruct (missing_config_leaves_component_inert envNoConfig SdkOk
              [EvAuthState (Some (mkUser "u1")); EvClickAdd 0 1000;
               EvSnapshot snapshotDemo] H)
    as (Htrace & _ & _ & _ & Hready & _).
  split; [exact Hready | exact Htrace].
Defined.

(* ================================================================== *)
(** * Further properties of the component *)

(** ** The remove handler *)

(** X1. Remove never raises: its promise resolves whatever the backend
    answers.  On a ready component it issues exactly one delete-document
    call, for the identifier it was given; a rejected delete is logged with
    "Error removing document: " and not retried; and in both cases the
    loading flag ends up cleared. *)
Theorem remove_logs_and_resolves :
  forall (env : Env) (id : string) (o : Outcome) (st : State),
    ready st = true ->
    let call := callHandleRemoveProduct env id o st in
    let delete := DeleteDoc (bakeryOrdersPath (appIdOrDefault env)) id in
    resultOf call = Returned
    /\ filter (fun e => isSome (callPath e)) (effectsOf call) = [delete]
    /\ effectsOf call
       = delete
         :: match o with
            | Fulfilled => []
            | Rejected e => [ConsoleError "Error removing document: " (Some e)]
            end
    /\ stateOf call = setLoading false st.
Proof.
  intros env id o st Hr call delete. subst call delete.
  unfold callHandleRemoveProduct.
  rewrite (handleRemoveProduct_ready env id st Hr).
  destruct o; repeat split; reflexivity.
Qed.

Lemma remove_logs_and_resolves_witness :
  ready readyState = true
  /\ effectsOf (callHandleRemoveProduct envDemo "Z9" (Rejected networkError)
                                       readyState)
     = [ DeleteDoc "/artifacts/demo/public/data/bakeryOrders" "Z9";
         ConsoleError "Error removing document: " (Some networkError) ]
  /\ resultOf (callHandleRemoveProduct envDemo "Z9" (Rejected networkError)
                                      readyState) = Returned.
Proof.
  assert (Hr : ready readyState = true) by reflexivity.
  split; [exact Hr|].
  destruct (remove_logs_and_resolves envDemo "Z9" (Rejected networkError)
              readyState Hr) as (Hres & _ & Heffs & _).
  split; [exact Heffs | exact Hres].
Defined.

(** ** Snapshots and the grid *)

Lemma array_sort_length {A : Type} (key : A -> Z) (l : list A) :
  List.length (array_sort (compareByKey key) l) = List.length l.
Proof. symmetry. apply Permutation_length, array_sort_perm. Qed.

(** X2. After a snapshot the grid has one row per document of the
    snapshot, and it shows the empty-state text exactly when the snapshot
    holds no document. *)
Theorem snapshot_rows_count_and_empty_state :
  forall (snapshot : list Doc) (st : State),
    let view := render (onSnapshotNext snapshot st) in
    List.length (shownRows view) = List.length snapshot
    /\ (snapshot = [] ->
          grid view = EmptyState "No items in the list. Add some!")
    /\ (grid view = EmptyState "No items in the list. Add some!" ->
          snapshot = []).
Proof.
  intros snapshot st view. subst view.
  assert (Hlen : List.length (products (onSnapshotNext snapshot st))
                 = List.length snapshot).
  { rewrite products_onSnapshotNext, array_sort_length. apply length_map. }
  split; [|split].
  - rewrite shownRows_render, length_map. exact Hlen.
  - intros ->. reflexivity.
  - unfold render. cbn [grid]. rewrite Hlen.
    destruct snapshot; [reflexivity | discriminate].
Qed.

Lemma snapshot_rows_count_and_empty_state_witness :
  grid (render (onSnapshotNext [] worldListed.(app)))
  = EmptyState "No items in the list. Add some!"
  /\ List.length (shownRows (render (onSnapshotNext snapshotDemo readyState)))
     = 2.
Proof.
  split.
  - exact (proj1 (proj2 (snapshot_rows_count_and_empty_state
                           [] (app worldListed))) eq_refl).
  - exact (proj1 (snapshot_rows_count_and_empty_state snapshotDemo readyState)).
Defined.

(** X3. The React keys of the rendered rows are, up to the order the sort
    puts them in, the identifiers of the products the snapshot callback
    built from the snapshot; so whenever those identifiers are pairwise
    distinct the keys are pairwise distinct, and the button of every row
    removes the identifier the row is keyed by. *)
Theorem row_keys_distinct :
  forall (snapshot : list Doc) (st : State),
    let built := collectProducts snapshot in
    let rows := shownRows (render (onSnapshotNext snapshot st)) in
    Permutation (map row_key rows) (map product_id built)
    /\ (NoDup (map product_id built) -> NoDup (map row_key rows))
    /\ Forall (fun row => row_remove row = row_key row) rows.
Proof.
  intros snapshot st built rows. subst built rows.
  assert (Hp : Permutation
                 (map row_key
                    (shownRows (render (onSnapshotNext snapshot st))))
                 (map product_id (collectProducts snapshot))).
  { rewrite shownRows_render, map_map. cbn [renderRow row_key].
    unfold onSnapshotNext. cbn [products setLoading setProducts].
    apply Permutation_map. symmetry.
    apply (array_sort_perm productTimestamp). }
  split; [exact Hp|]. split.
  - intro Hnd. eapply Permutation_NoDup; [symmetry; exact Hp | exact Hnd].
  - rewrite shownRows_render. apply Forall_forall. intros row Hrow.
    apply in_map_iff in Hrow as [p [<- _]]. reflexivity.
Qed.

Lemma row_keys_distinct_witness :
  NoDup (map product_id (collectProducts snapshotDemo))
  /\ NoDup (map row_key
              (shownRows (render (onSnapshotNext snapshotDemo readyState)))).
Proof.
  assert (H : NoDup (map product_id (collectProducts snapshotDemo))).
  { repeat constructor; simpl; intuition discriminate. }
  split; [exact H|].
  exact (proj1 (proj2 (row_keys_distinct snapshotDemo readyState)) H).
Defined.

Lemma array_sort_sorted_id {A : Type} (key : A -> Z) (l : list A) :
  StronglySorted (fun a b => (key a <= key b)%Z) l ->
  array_sort (compareByKey key) l = l.
Proof.
  induction 1 as [|x l Hs IH Hx]; [reflexivity|].
  cbn [array_sort]. rewrite IH.
  destruct l as [|y l]; [reflexivity|].
  cbn [sort_insert]. unfold compareByKey.
  apply Forall_inv in Hx.
  destruct (Z.ltb_spec 0 (key x - key y)); [lia | reflexivity].
Qed.

(** X4. A snapshot whose documents already come in ascending timestamp
    order (equal timestamps allowed) is shown in exactly the order it came
    in. *)
Theorem ordered_snapshot_shown_as_is :
  forall (snapshot : list Doc) (st : State),
    StronglySorted
      (fun a b => (timestamp (doc_data a) <= timestamp (doc_data b))%Z)
      snapshot ->
    products (onSnapshotNext snapshot st) = map productOfDoc snapshot
    /\ map row_key (shownRows (render (onSnapshotNext snapshot st)))
       = map doc_id snapshot.
Proof.
  intros snapshot st Hs.
  assert (Heq : products (onSnapshotNext snapshot st)
                = map productOfDoc snapshot).
  { rewrite products_onSnapshotNext. apply array_sort_sorted_id.
    induction Hs as [|d l Hs IH Hd]; cbn [map]; constructor; trivial.
    rewrite Forall_forall in *. intros p Hp.
    apply in_map_iff in Hp as [d' [<- Hd']]. exact (Hd d' Hd'). }
  split; [exact Heq|].
  rewrite shownRows_render, Heq, !map_map. reflexivity.
Qed.

Lemma ordered_snapshot_shown_as_is_witness :
  StronglySorted
    (fun a b => (timestamp (doc_data a) <= timestamp (doc_data b))%Z)
    (rev snapshotDemo)
  /\ map row_key (shownRows (render (onSnapshotNext (rev snapshotDemo)
                                                    readyState)))
     = ["Z9"; "A1"].
Proof.
  assert (H : StronglySorted
                (fun a b => (timestamp (doc_data a) <= timestamp (doc_data b))%Z)
                (rev snapshotDemo)).
  { repeat constructor. simpl. lia. }
  split; [exact H|].
  exact (proj2 (ordered_snapshot_shown_as_is (rev snapshotDemo) readyState H)).
Defined.

(** ** Clicks *)

(** X5. On a ready component, a click on the X of a row issues exactly
    one delete-document call, for the document that row is keyed by, and
    leaves the list as it is until the next snapshot. *)
Theorem click_remove_deletes_that_row :
  forall (env : Env) (w : World) (k : nat) (row : Row),
    mounted w = true -> ready (app w) = true ->
    nth_error (shownRows (render (app w))) k = Some row ->
    let w' := step env w (EvClickRemove k) in
    trace w'
    = trace w
      ++ [DeleteDoc (bakeryOrdersPath (appIdOrDefault env)) (row_key row)]
    /\ products (app w') = products (app w)
    /\ inflight w' = inflight w ++ [PendingRemove].
Proof.
  intros env w k row Hm Hr Hrow w'. subst w'.
  rewrite shownRows_render, nth_error_map in Hrow.
  destruct (nth_error (products (app w)) k) as [product|] eqn:Hk;
    [|discriminate Hrow].
  injection Hrow as <-.
  rewrite (step_click_remove_ready env w k product Hm Hr Hk).
  repeat split; reflexivity.
Qed.

Lemma click_remove_deletes_that_row_witness :
  mounted worldListed = true
  /\ ready (app worldListed) = true
  /\ nth_error (shownRows (render (app worldListed))) 1
     = Some (mkRow "A1" "Spinach Roll" "A1" "Remove Spinach Roll")
  /\ trace (step envDemo worldListed (EvClickRemove 1))
     = trace worldListed
       ++ [DeleteDoc "/artifacts/demo/public/data/bakeryOrders" "A1"].
Proof.
  assert (Hm : mounted worldListed = true) by reflexivity.
  assert (Hr : ready (app worldListed) = true) by reflexivity.
  assert (Hk : nth_error (shownRows (render (app worldListed))) 1
               = Some (mkRow "A1" "Spinach Roll" "A1" "Remove Spinach Roll"))
    by reflexivity.
  split; [exact Hm|]. split; [exact Hr|]. split; [exact Hk|].
  exact (proj1 (click_remove_deletes_that_row envDemo worldListed 1 _
                  Hm Hr Hk)).
Defined.

(** X6. On a ready component, a click on a catalog button issues exactly
    one add-document call whose name is the text of that button, whose
    timestamp is the clock value at the click and whose creator is the
    current session identifier; the list itself is left as it is until the
    next snapshot. *)
Theorem click_add_writes_button_text :
  forall (env : Env) (w : World) (i : nat) (now : Z) (button : AddButton),
    mounted w = true -> ready (app w) = true ->
    nth_error (addButtons (render (app w))) i = Some button ->
    let w' := step env w (EvClickAdd i now) in
    trace w'
    = trace w
      ++ [AddDoc (bakeryOrdersPath (appIdOrDefault env))
                 (mkDocData (button_text button) now (userId (app w)))]
    /\ products (app w') = products (app w)
    /\ inflight w' = inflight w ++ [PendingAdd].
Proof.
  intros env w i now button Hm Hr Hb w'. subst w'.
  unfold render in Hb. cbn [addButtons] in Hb.
  rewrite nth_error_map in Hb.
  destruct (nth_error bakeryItems i) as [item|] eqn:Hi; [|discriminate Hb].
  injection Hb as <-.
  rewrite (step_click_add_ready env w i now item Hm Hr Hi).
  repeat split; reflexivity.
Qed.

Lemma click_add_writes_button_text_witness :
  mounted worldListed = true
  /\ ready (app worldListed) = true
  /\ nth_error (addButtons (render (app worldListed))) 1
     = Some (mkAddButton "hamCheeseCroissant" "Ham and Cheese Croissant"
               (mkCatalogEntry "hamCheeseCroissant"
                               "Ham and Cheese Croissant"))
  /\ trace (step envDemo worldListed (EvClickAdd 1 3000))
     = trace worldListed
       ++ [AddDoc "/artifacts/demo/public/data/bakeryOrders"
                  (mkDocData "Ham and Cheese Croissant" 3000 (Some "u1"))].
Proof.
  assert (Hm : mounted worldListed = true) by reflexivity.
  assert (Hr : ready (app worldListed) = true) by reflexivity.
  assert (Hb : nth_error (addButtons (render (app worldListed))) 1
               = Some (mkAddButton "hamCheeseCroissant"
                         "Ham and Cheese Croissant"
                         (mkCatalogEntry "hamCheeseCroissant"
                                         "Ham and Cheese Croissant")))
    by reflexivity.
  split; [exact Hm|]. split; [exact Hr|]. split; [exact Hb|].
  exact (proj1 (click_add_writes_button_text envDemo worldListed 1 3000%Z _
                  Hm Hr Hb)).
Defined.

(** ** What a turn of the event loop leaves alone *)

(** Every case of [fire], with the handlers' branches laid open. *)
Ltac fire_cases env w ev :=
  destruct ev as [sdk|user|k o|snapshot|e|i now|k]; cbn [fire];
  [ unfold mountEffect;
    destruct (firebase_config env), (app_id env); try destruct sdk
  | unfold authStateChanged;
    destruct user; [|destruct (initial_auth_token env)]
  | destruct (nth_error (inflight w) k) as [[]|]; try destruct o
  | idtac
  | idtac
  | destruct (nth_error bakeryItems i);
    [unfold handleAddProduct;
     destruct (negb (isSome (db (app w))) || negb (isAuthReady (app w)))|]
  | destruct (nth_error (products (app w)) k);
    [unfold handleRemoveProduct;
     destruct (negb (isSome (db (app w))) || negb (isAuthReady (app w)))|] ];
  cbn.

(** The subscription effect only ever writes the loading flag, the trace
    and the subscription. *)
Lemma rerunSubscription_frame (env : Env) (old : State) (w : World) :
  let w' := rerunSubscription env old w in
  products (app w') = products (app w)
  /\ db (app w') = db (app w)
  /\ auth (app w') = auth (app w)
  /\ userId (app w') = userId (app w)
  /\ isAuthReady (app w') = isAuthReady (app w)
  /\ inflight w' = inflight w
  /\ unhandled w' = unhandled w
  /\ mounted w' = mounted w
  /\ authListener w' = authListener w.
Proof.
  unfold rerunSubscription, subscriptionEffect.
  destruct (depsChanged old (app w)); [|repeat split; reflexivity].
  destruct (isAuthReady (app w) && isSome (db (app w)));
    repeat split; reflexivity.
Qed.

Lemma step_keeps_products (env : Env) (w : World) (ev : Event) :
  (forall snapshot, ev <> EvSnapshot snapshot) ->
  products (app (step env w ev)) = products (app w).
Proof.
  intro Hev. unfold step. destruct (enabled w ev); [|reflexivity].
  destruct (rerunSubscription_frame env (app w) (fire env w ev))
    as (-> & _).
  fire_cases env w ev; try reflexivity.
  exfalso. exact (Hev snapshot eq_refl).
Qed.

(** X7. The mirrored product list is written by the snapshot callback and
    by nothing else: a click, the completion of a write, an auth change, a
    subscription error or the mount leave it exactly as it was (there is no
    optimistic update). *)
Theorem only_snapshots_change_products :
  forall (env : Env) (w : World) (ev : Event),
    (forall snapshot, ev <> EvSnapshot snapshot) ->
    products (app (step env w ev)) = products (app w)
    /\ shownRows (render (app (step env w ev)))
       = shownRows (render (app w)).
Proof.
  intros env w ev Hev.
  pose proof (step_keeps_products env w ev Hev) as Hp.
  split; [exact Hp|]. now rewrite !shownRows_render, Hp.
Qed.

Lemma only_snapshots_change_products_witness :
  (forall snapshot, EvClickAdd 0 3000 <> EvSnapshot snapshot)
  /\ products (app (step envDemo worldListed (EvClickAdd 0 3000)))
     = products (app worldListed).
Proof.
  assert (H : forall snapshot, EvClickAdd 0 3000 <> EvSnapshot snapshot)
    by discriminate.
  split; [exact H|].
  exact (proj1 (only_snapshots_change_products envDemo worldListed _ H)).
Defined.

Lemma step_keeps_ready (env : Env) (w : World) (ev : Event) :
  isAuthReady (app w) = true -> isSome (userId (app w)) = true ->
  isAuthReady (app (step env w ev)) = true
  /\ isSome (userId (app (step env w ev))) = true.
Proof.
  intros Hr Hu. unfold step. destruct (enabled w ev); [|now split].
  destruct (rerunSubscription_frame env (app w) (fire env w ev))
    as (_ & _ & _ & -> & -> & _).
  fire_cases env w ev; now split.
Qed.

(** X8. Readiness is never taken back.  Once the auth listener has been
    called with a user, [isAuthReady] stays true and [userId] stays defined
    through every later event; in particular a later call of the listener
    with no user (a sign-out) starts a sign-in but leaves both as they
    were. *)
Theorem readiness_is_never_reset :
  forall (env : Env) (evs : list Event) (w : World),
    isAuthReady (app w) = true -> isSome (userId (app w)) = true ->
    isAuthReady (app (run env w evs)) = true
    /\ isSome (userId (app (run env w evs))) = true
    /\ app (fire env w (EvAuthState None)) = app w.
Proof.
  intros env evs. induction evs as [|ev evs IH]; intros w Hr Hu.
  - repeat split; trivial.
    cbn [fire]. unfold authStateChanged.
    destruct (initial_auth_token env); reflexivity.
  - destruct (step_keeps_ready env w ev Hr Hu) as [Hr' Hu'].
    destruct (IH (step env w ev) Hr' Hu') as (H1 & H2 & _).
    split; [exact H1|]. split; [exact H2|].
    cbn [fire]. unfold authStateChanged.
    destruct (initial_auth_token env); reflexivity.
Qed.

Lemma readiness_is_never_reset_witness :
  isAuthReady (app worldListed) = true
  /\ isSome (userId (app worldListed)) = true
  /\ isAuthReady
       (app (run envDemo worldListed
               [EvAuthState None; EvSettle 0 (Rejected networkError);
                EvSnapshotError networkError]))
     = true.
Proof.
  assert (Hr : isAuthReady (app worldListed) = true) by reflexivity.
  assert (Hu : isSome (userId (app worldListed)) = true) by reflexivity.
  split; [exact Hr|]. split; [exact Hu|].
  exact (proj1 (readiness_is_never_reset envDemo
                  [EvAuthState None; EvSettle 0 (Rejected networkError);
                   EvSnapshotError networkError] worldListed Hr Hu)).
Defined.

Lemma step_keeps_handles (env : Env) (w : World) (ev : Event) :
  mounted w = true ->
  mounted (step env w ev) = true
  /\ db (app (step env w ev)) = db (app w)
  /\ auth (app (step env w ev)) = auth (app w).
Proof.
  intros Hm. unfold step. destruct (enabled w ev) eqn:Hen; [|now repeat split].
  destruct (rerunSubscription_frame env (app w) (fire env w ev))
    as (_ & -> & -> & _ & _ & _ & _ & -> & _).
  fire_cases env w ev; try (now repeat split);
    cbn [enabled] in Hen; rewrite Hm in Hen; discriminate Hen.
Qed.

(** X9. The database and auth handles are created by the mount effect
    and by nothing else: once the component is mounted, no event changes
    or drops them, and the mount effect itself never runs a second time. *)
Theorem handles_fixed_after_mount :
  forall (env : Env) (evs : list Event) (w : World),
    mounted w = true ->
    db (app (run env w evs)) = db (app w)
    /\ auth (app (run env w evs)) = auth (app w)
    /\ mounted (run env w evs) = true.
Proof.
  intros env evs. induction evs as [|ev evs IH]; intros w Hm.
  - now repeat split.
  - destruct (step_keeps_handles env w ev Hm) as (Hm' & Hd & Ha).
    destruct (IH (step env w ev) Hm') as (H1 & H2 & H3).
    cbn [run fold_left] in *. unfold run in *.
    rewrite H1, H2, Hd, Ha. now repeat split.
Qed.

Lemma handles_fixed_after_mount_witness :
  mounted worldReady = true
  /\ db (app (run envDemo worldReady
                [EvMount SdkOk; EvClickAdd 0 1000;
                 EvMount (SdkThrowsBeforeHandles networkError)]))
     = Some (mkFirestore "{}").
Proof.
  assert (Hm : mounted worldReady = true) by reflexivity.
  split; [exact Hm|].
  exact (proj1 (handles_fixed_after_mount envDemo
                  [EvMount SdkOk; EvClickAdd 0 1000;
                   EvMount (SdkThrowsBeforeHandles networkError)]
                  worldReady Hm)).
Defined.

(** ** Startup that stops short of the auth listener *)

Lemma step_trace_grows (env : Env) (w : World) (ev : Event) :
  exists effs, trace (step env w ev) = trace w ++ effs.
Proof.
  unfold step. destruct (enabled w ev);
    [|exists []; now rewrite app_nil_r].
  unfold rerunSubscription, subscriptionEffect.
  assert (Hf : exists effs, trace (fire env w ev) = trace w ++ effs).
  { fire_cases env w ev; try (eexists; reflexivity);
      exists []; now rewrite app_nil_r. }
  destruct Hf as [effs Hf].
  destruct (depsChanged (app w) (app (fire env w ev)));
    [|now exists effs].
  destruct (isAuthReady (app (fire env w ev))
            && isSome (db (app (fire env w ev))));
    cbn [trace]; rewrite Hf, <- app_assoc; eexists; reflexivity.
Qed.

Lemma run_trace_grows (env : Env) (evs : list Event) :
  forall w, exists effs, trace (run env w evs) = trace w ++ effs.
Proof.
  induction evs as [|ev evs IH]; intro w.
  - exists []. now rewrite app_nil_r.
  - destruct (step_trace_grows env w ev) as [effs1 H1].
    destruct (IH (step env w ev)) as [effs2 H2].
    exists (effs1 ++ effs2). cbn [run fold_left] in *. unfold run in H2.
    now rewrite H2, H1, app_assoc.
Qed.

Lemma step_stalled (env : Env) (st0 : State) (w : World) (ev : Event) :
  isAuthReady st0 = false -> products st0 = [] ->
  Stalled st0 w -> Stalled st0 (step env w ev).
Proof.
  intros Hnr0 Hp0 Hw.
  pose proof Hw as (Happ & Hm & Hl & Hs & Hi & Hu & Htr).
  assert (Hnr : ready (app w) = false).
  { rewrite Happ. unfold ready. rewrite Hnr0. apply andb_false_r. }
  unfold step.
  destruct (enabled w ev) eqn:Hen; [|exact Hw].
  destruct ev as [sdk|user|k o|snapshot|e|i now|k]; cbn [enabled] in Hen.
  - rewrite Hm in Hen. discriminate Hen.
  - rewrite Hl in Hen. discriminate Hen.
  - rewrite Hi in Hen. discriminate Hen.
  - rewrite Hs in Hen. discriminate Hen.
  - rewrite Hs in Hen. discriminate Hen.
  - cbn [fire]. destruct (nth_error bakeryItems i) as [item|].
    + rewrite (handleAddProduct_not_ready env now item (app w) Hnr).
      rewrite rerunSubscription_same_deps by reflexivity.
      repeat split; cbn; trivial.
      * now rewrite Hi.
      * apply Forall_app; split; [assumption | repeat constructor].
    + rewrite rerunSubscription_same_deps by reflexivity. exact Hw.
  - rewrite Happ, Hp0 in Hen. cbn in Hen.
    rewrite andb_false_r in Hen. discriminate Hen.
Qed.

Lemma run_stalled (env : Env) (st0 : State) (evs : list Event) :
  isAuthReady st0 = false -> products st0 = [] ->
  forall w, Stalled st0 w -> Stalled st0 (run env w evs).
Proof.
  intros Hnr Hp. induction evs as [|ev evs IH]; intros w H; [exact H|].
  apply IH. now apply step_stalled.
Qed.

(** X10. When the configuration is present but the SDK throws inside the
    [try] of the mount effect, whether before the handles are stored or
    while the auth listener is being registered, the error is logged with
    "Failed to initialize Firebase:" and the component never leaves its
    startup state: through every later event the loading flag stays set
    (the overlay stays up), readiness stays false, no listener or
    subscription exists, and nothing but [console.error] is ever called. *)
Theorem failed_startup_stays_loading :
  forall (cfg appId : string) (token : option string) (e : Err)
         (atListener : bool) (evs : list Event),
    let env := mkEnv (Some cfg) (Some appId) token in
    let sdk := if atListener then SdkThrowsAtListener e
               else SdkThrowsBeforeHandles e in
    let w := run env initialWorld (EvMount sdk :: evs) in
    app w = (if atListener
             then setAuth (Some (mkAuth cfg))
                          (setDb (Some (mkFirestore cfg)) initialState)
             else initialState)
    /\ loading (app w) = true
    /\ isAuthReady (app w) = false
    /\ overlay (render (app w)) = true
    /\ hd_error (trace w)
       = Some (ConsoleError "Failed to initialize Firebase:" (Some e))
    /\ Forall (fun e' => isConsoleError e' = true) (trace w)
    /\ authListener w = false
    /\ subscription w = None.
Proof.
  intros cfg appId token e atListener evs env sdk w.
  set (st0 := if atListener
              then setAuth (Some (mkAuth cfg))
                           (setDb (Some (mkFirestore cfg)) initialState)
              else initialState).
  set (started := mkWorld st0
                    [ConsoleError "Failed to initialize Firebase:" (Some e)]
                    [] [] true false None).
  assert (Hstep : step env initialWorld (EvMount sdk) = started)
    by (subst sdk started st0; destruct atListener; reflexivity).
  assert (Hnr : isAuthReady st0 = false)
    by (subst st0; destruct atListener; reflexivity).
  assert (Hp : products st0 = [])
    by (subst st0; destruct atListener; reflexivity).
  assert (Hw : w = run env started evs)
    by (subst w; unfold run; cbn [fold_left]; now rewrite Hstep).
  assert (Hst : Stalled st0 (run env started evs)).
  { apply run_stalled; trivial.
    subst started. repeat split; try reflexivity. repeat constructor. }
  destruct (run_trace_grows env evs started) as [effs Heffs].
  rewrite <- Hw in Hst, Heffs.
  destruct Hst as (Happ & _ & Hl & Hs & _ & _ & Htr).
  split; [exact Happ|].
  split; [rewrite Happ; subst st0; destruct atListener; reflexivity|].
  split; [rewrite Happ; exact Hnr|].
  split; [cbn [render overlay]; rewrite Happ; subst st0;
          destruct atListener; reflexivity|].
  split; [rewrite Heffs; reflexivity|].
  split; [exact Htr|]. split; [exact Hl | exact Hs].
Qed.

(** ** The invariant of the event loop *)

Lemma existsb_false_nth {A : Type} (f : A -> bool) (l : list A) (k : nat)
  (a : A) :
  existsb f l = false -> nth_error l k = Some a -> f a = false.
Proof.
  revert k. induction l as [|x l IH]; intros [|k] H Hk;
    try discriminate Hk; cbn in *; apply orb_false_iff in H as [Hx Hl].
  - now injection Hk as <-.
  - exact (IH k Hl Hk).
Qed.

Lemma existsb_false_removeNth {A : Type} (f : A -> bool) (l : list A)
  (k : nat) :
  existsb f l = false -> existsb f (removeNth k l) = false.
Proof.
  revert k. induction l as [|x l IH]; intros [|k] H; cbn in *; trivial;
    apply orb_false_iff in H as [Hx Hl]; trivial.
  rewrite Hx. now apply IH.
Qed.

Lemma catalog_name_listed (i : nat) (item : CatalogEntry) :
  nth_error bakeryItems i = Some item ->
  existsb (String.eqb (item_name item)) catalogNames = true.
Proof.
  destruct i as [|[|[|i]]]; cbn; intro H; try injection H as <-;
    try reflexivity.
  destruct i; discriminate H.
Qed.

Lemma sound_initial (env : Env) : Sound env initialWorld.
Proof. constructor; cbn; intros; repeat split; trivial; discriminate. Qed.

(** A callback that leaves the dependencies of the subscription effect,
    the listeners and the user alone keeps the invariant, provided what it
    does is allowed in the current state. *)
Lemma sound_quiet (env : Env) (w w' : World) (effs : list Effect) :
  Sound env w -> mounted w = true ->
  trace w' = trace w ++ effs ->
  mounted w' = true ->
  authListener w' = authListener w ->
  subscription w' = subscription w ->
  db (app w') = db (app w) ->
  isAuthReady (app w') = isAuthReady (app w) ->
  userId (app w') = userId (app w) ->
  (isAuthReady (app w) = false ->
     products (app w') = products (app w)
     /\ loading (app w') = loading (app w)
     /\ existsb isWrite (inflight w') = false
     /\ forallb noDataCall effs = true) ->
  filter isOnSnapshot effs = [] ->
  forallb (effectOk env) effs = true ->
  Sound env w'.
Proof.
  intros HS Hm Htr Hm' Hl Hs Hdb Hr Hu Hnot Hsub Hok.
  destruct HS as [S1 S2 S3 S4 S5 S6].
  constructor.
  - rewrite Hm'. discriminate.
  - rewrite Hl, Hdb. exact S2.
  - rewrite Hr, Hdb, Hu, Hs. exact S3.
  - rewrite Hr. intro Hnr.
    destruct (S4 Hnr) as (A1 & A2 & A3 & A4 & A5).
    destruct (Hnot Hnr) as (B1 & B2 & B3 & B4).
    rewrite Hs, B1, B2, Htr, forallb_app, A4, B4. now repeat split.
  - rewrite Htr, Hr, filter_app, Hsub, app_nil_r. exact S5.
  - rewrite Htr, forallb_app, S6, Hok. reflexivity.
Qed.

Ltac quiet env w :=
  rewrite rerunSubscription_same_deps by reflexivity;
  eapply (sound_quiet env w);
  [ eassumption | assumption
  | first [ reflexivity | exact (eq_sym (app_nil_r _)) ]
  | assumption | reflexivity | reflexivity | reflexivity | reflexivity
  | reflexivity | | reflexivity | ].

Lemma step_sound (env : Env) (w : World) (ev : Event) :
  Sound env w -> Sound env (step env w ev).
Proof.
  intros HS. unfold step.
  destruct (enabled w ev) eqn:Hen; [|exact HS].
  destruct (mounted w) eqn:Hm.
  2: { pose proof (sound_unmounted env w HS Hm) as Hw. subst w.
       destruct ev; try discriminate Hen.
       destruct env as [[cfg|] [appId|] token]; try destruct sdk;
         constructor; cbn; intros; repeat split; trivial; discriminate. }
  pose proof HS as [S1 S2 S3 S4 S5 S6].
  destruct ev as [sdk|user|k o|snapshot|e|i now|k]; cbn [enabled] in Hen.
  - rewrite Hm in Hen. discriminate Hen.
  - (* the auth listener *)
    specialize (S2 Hen). cbn [fire]. unfold authStateChanged.
    destruct user as [u|].
    + unfold rerunSubscription, depsChanged, subscriptionEffect.
      cbn [app isAuthReady db setLoading setIsAuthReady setUserId trace
           subscription inflight unhandled mounted authListener].
      rewrite handleEqb_refl, S2.
      destruct (isAuthReady (app w)) eqn:Hr; cbn -[bakeryOrdersPath].
      * destruct (S3 eq_refl) as (_ & _ & Hsub).
        constructor; cbn -[bakeryOrdersPath];
          rewrite ?Hm, ?app_nil_r; intros; try discriminate;
          repeat split; trivial.
      * destruct (S4 eq_refl) as (Hsub & _ & _ & _ & _).
        rewrite Hsub.
        constructor; cbn -[bakeryOrdersPath];
          rewrite ?Hm, ?app_nil_r; intros; try discriminate;
          repeat split; trivial.
        -- rewrite filter_app, length_app, S5. reflexivity.
        -- rewrite forallb_app, S6. reflexivity.
    + destruct (initial_auth_token env) as [tok|] eqn:Htok; quiet env w.
      * intros Hnr. destruct (S4 Hnr) as (_ & _ & Hin & _).
        cbn. rewrite existsb_app, Hin. now repeat split.
      * cbn. now rewrite Htok, String.eqb_refl.
      * intros Hnr. destruct (S4 Hnr) as (_ & _ & Hin & _).
        cbn. rewrite existsb_app, Hin. now repeat split.
      * cbn. now rewrite Htok.
  - (* an awaited promise settles *)
    cbn [fire]. destruct (nth_error (inflight w) k) as [p|] eqn:Hp.
    2: { now rewrite rerunSubscription_same_deps by reflexivity. }
    destruct p, o; cbn [resume authStateChangedSettle handleAddProductSettle
                          handleRemoveProductSettle]; quiet env w;
      try reflexivity; intros Hnr;
      destruct (S4 Hnr) as (_ & _ & Hin & _);
      try (pose proof (existsb_false_nth _ _ _ _ Hin Hp) as Habs;
           discriminate Habs);
      cbn; repeat split; trivial; now apply existsb_false_removeNth.
  - (* a snapshot *)
    cbn [fire]. quiet env w; try reflexivity.
    intros Hnr. destruct (S4 Hnr) as (Hsub & _).
    rewrite Hsub in Hen. discriminate Hen.
  - (* a subscription error *)
    cbn [fire onSnapshotError]. quiet env w; try reflexivity.
    intros Hnr. destruct (S4 Hnr) as (Hsub & _).
    rewrite Hsub in Hen. discriminate Hen.
  - (* a click on a catalog button *)
    cbn [fire]. destruct (nth_error bakeryItems i) as [item|] eqn:Hi.
    2: { now rewrite rerunSubscription_same_deps by reflexivity. }
    destruct (ready (app w)) eqn:Hr.
    + rewrite (handleAddProduct_ready env now item (app w) Hr).
      apply ready_true in Hr as [_ Hr]. quiet env w.
      * intros Hnr. congruence.
      * destruct (S3 Hr) as (_ & Hu & _).
        cbn [forallb effectOk addedBy name].
        now rewrite Hu, (catalog_name_listed i item Hi).
    + rewrite (handleAddProduct_not_ready env now item (app w) Hr).
      quiet env w; try reflexivity.
      intros Hnr. destruct (S4 Hnr) as (_ & _ & Hin & _).
      cbn. rewrite existsb_app, Hin. now repeat split.
  - (* a click on the X of a row *)
    cbn [fire]. destruct (nth_error (products (app w)) k) as [product|].
    2: { now rewrite rerunSubscription_same_deps by reflexivity. }
    destruct (ready (app w)) eqn:Hr.
    + rewrite (handleRemoveProduct_ready env _ (app w) Hr).
      apply ready_true in Hr as [_ Hr]. quiet env w; try reflexivity.
      intros Hnr. congruence.
    + rewrite (handleRemoveProduct_not_ready env _ (app w) Hr).
      quiet env w; try reflexivity.
      intros Hnr. destruct (S4 Hnr) as (_ & _ & Hin & _).
      cbn. rewrite existsb_app, Hin. now repeat split.
Qed.

Lemma run_sound (env : Env) (evs : list Event) :
  forall w, Sound env w -> Sound env (run env w evs).
Proof.
  induction evs as [|ev evs IH]; intros w H; [exact H|].
  apply IH. now apply step_sound.
Qed.

Lemma reachable_sound (env : Env) (evs : list Event) :
  Sound env (run env initialWorld evs).
Proof. apply run_sound, sound_initial. Qed.

(** X11. Whatever the environment and whatever happens, every document
    the component ever writes names one of the three catalog entries and
    carries a creator: no add-document call is made with [addedBy] null. *)
Theorem written_documents_are_tagged :
  forall (env : Env) (evs : list Event) (path : string) (fields : DocData),
    In (AddDoc path fields) (trace (run env initialWorld evs)) ->
    (exists uid, addedBy fields = Some uid)
    /\ In (name fields)
          ["Sausage Roll"; "Ham and Cheese Croissant"; "Spinach Roll"].
Proof.
  intros env evs path fields Hin.
  pose proof (sound_trace env _ (reachable_sound env evs)) as Hok.
  rewrite forallb_forall in Hok. specialize (Hok _ Hin).
  cbn [effectOk] in Hok. apply andb_true_iff in Hok as [Hby Hname].
  split.
  - destruct (addedBy fields) as [uid|]; [now exists uid | discriminate Hby].
  - apply existsb_exists in Hname as [n [Hn Heq]].
    apply String.eqb_eq in Heq. now rewrite Heq.
Qed.

Lemma written_documents_are_tagged_witness :
  In (AddDoc "/artifacts/demo/public/data/bakeryOrders"
             (mkDocData "Spinach Roll" 3000 (Some "u1")))
     (trace (run envDemo initialWorld
               [EvMount SdkOk; EvAuthState (Some (mkUser "u1"));
                EvClickAdd 2 3000]))
  /\ exists uid, Some "u1" = Some uid.
Proof.
  assert (Hin : In (AddDoc "/artifacts/demo/public/data/bakeryOrders"
                           (mkDocData "Spinach Roll" 3000 (Some "u1")))
                   (trace (run envDemo initialWorld
                             [EvMount SdkOk; EvAuthState (Some (mkUser "u1"));
                              EvClickAdd 2 3000]))).
  { right. right. left. reflexivity. }
  split; [exact Hin|].
  exact (proj1 (written_documents_are_tagged envDemo _ _ _ Hin)).
Defined.

(** X12. While it is mounted the component subscribes exactly once, at
    the moment readiness becomes true, and does not cancel: in every
    reachable state the number of [onSnapshot] calls made so far is one if
    [isAuthReady] and zero otherwise, the live subscription (if any) is on
    the bakery-orders path, and the cleanup of the subscription effect has
    never run. *)
Theorem subscribes_once_when_ready :
  forall (env : Env) (evs : list Event),
    let w := run env initialWorld evs in
    List.length (filter isOnSnapshot (trace w))
    = (if isAuthReady (app w) then 1 else 0)
    /\ subscription w
       = (if isAuthReady (app w)
          then Some (bakeryOrdersPath (appIdOrDefault env))
          else None)
    /\ filter isUnsubscribe (trace w) = [].
Proof.
  intros env evs w.
  pose proof (reachable_sound env evs) as [S1 S2 S3 S4 S5 S6].
  fold w in S1, S2, S3, S4, S5, S6.
  split; [exact S5|]. split.
  - destruct (isAuthReady (app w)).
    + now destruct (S3 eq_refl) as (_ & _ & ->).
    + now destruct (S4 eq_refl) as (-> & _).
  - clear - S6. induction (trace w) as [|e l IH]; [reflexivity|].
    cbn [forallb] in S6. apply andb_true_iff in S6 as [He Hl].
    cbn [filter]. destruct e; try discriminate He; cbn; auto.
Qed.

(** X13. The sign-in the component attempts is decided by the
    environment alone: with a pre-supplied token every sign-in it ever
    starts is [signInWithCustomToken] with that token, and without one
    every sign-in is anonymous. *)
Theorem sign_in_follows_token :
  forall (env : Env) (evs : list Event) (e : Effect),
    In e (trace (run env initialWorld evs)) ->
    isSignIn e = true ->
    e = match initial_auth_token env with
        | Some token => SignInWithCustomToken token
        | None => SignInAnonymously
        end.
Proof.
  intros env evs e Hin Hsign.
  pose proof (sound_trace env _ (reachable_sound env evs)) as Hok.
  rewrite forallb_forall in Hok. specialize (Hok _ Hin).
  destruct e; try discriminate Hsign; cbn [effectOk] in Hok;
    destruct (initial_auth_token env) as [tok|]; try discriminate Hok.
  - apply String.eqb_eq in Hok. now subst.
  - reflexivity.
Qed.

Lemma sign_in_follows_token_witness :
  In (SignInWithCustomToken "tok")
     (trace (run (mkEnv (Some "{}") (Some "demo") (Some "tok")) initialWorld
               [EvMount SdkOk; EvAuthState None]))
  /\ isSignIn (SignInWithCustomToken "tok") = true
  /\ SignInWithCustomToken "tok" = SignInWithCustomToken "tok".
Proof.
  assert (Hin : In (SignInWithCustomToken "tok")
                   (trace (run (mkEnv (Some "{}") (Some "demo") (Some "tok"))
                               initialWorld
                               [EvMount SdkOk; EvAuthState None]))).
  { right. left. reflexivity. }
  split; [exact Hin|]. split; [reflexivity|].
  exact (sign_in_follows_token _ _ _ Hin eq_refl).
Defined.

(** X14. Until the auth listener has been called with a user, nothing
    reaches the data service and nothing is shown: in every reachable state
    with [isAuthReady] false the product list is empty, no subscribe, add
    or delete call was ever made, nothing but sign-ins can be in flight,
    and, when the configuration is present, the loading overlay is up. *)
Theorem nothing_before_readiness :
  forall (env : Env) (evs : list Event),
    let w := run env initialWorld evs in
    isAuthReady (app w) = false ->
    products (app w) = []
    /\ (forall e, In e (trace w) -> callPath e = None)
    /\ (forall p, In p (inflight w) -> p = PendingSignIn)
    /\ subscription w = None
    /\ (firebase_config env <> None -> app_id env <> None ->
          loading (app w) = true /\ overlay (render (app w)) = true).
Proof.
  intros env evs w Hnr.
  destruct (sound_not_ready env _ (reachable_sound env evs) Hnr)
    as (Hsub & Hp & Hin & Htr & Hload).
  fold w in Hsub, Hp, Hin, Htr, Hload.
  split; [exact Hp|]. split; [|split; [|split; [exact Hsub|]]].
  - intros e He. rewrite forallb_forall in Htr. specialize (Htr e He).
    unfold noDataCall in Htr. now destruct (callPath e).
  - intros p Hp'. destruct p; trivial;
      assert (Hex : existsb isWrite (inflight w) = true)
        by (apply existsb_exists; eexists; split; [exact Hp'|reflexivity]);
      congruence.
  - intros Hcfg Hid.
    assert (Hl : loading (app w) = true).
    { apply Hload. unfold configPresent.
      destruct (firebase_config env), (app_id env);
        first [reflexivity | congruence]. }
    split; [exact Hl | exact Hl].
Qed.

Lemma nothing_before_readiness_witness :
  isAuthReady
    (app (run envDemo initialWorld
            [EvMount SdkOk; EvAuthState None; EvClickAdd 0 1000;
             EvSettle 0 (Rejected networkError)])) = false
  /\ forall e,
       In e (trace (run envDemo initialWorld
                      [EvMount SdkOk; EvAuthState None; EvClickAdd 0 1000;
                       EvSettle 0 (Rejected networkError)])) ->
       callPath e = None.
Proof.
  assert (H : isAuthReady
                (app (run envDemo initialWorld
                        [EvMount SdkOk; EvAuthState None; EvClickAdd 0 1000;
                         EvSettle 0 (Rejected networkError)])) = false)
    by reflexivity.
  split; [exact H|].
  exact (proj1 (proj2 (nothing_before_readiness envDemo _ H))).
Defined.

(** X15. In every reachable state the readiness flag alone decides the
    guard of the write handlers: whenever [isAuthReady] is true the database
    handle is present and a session identifier is known, so [db &&
    isAuthReady] holds exactly when [isAuthReady] does. *)
Theorem ready_exactly_when_signed_in :
  forall (env : Env) (evs : list Event),
    let w := run env initialWorld evs in
    ready (app w) = isAuthReady (app w)
    /\ (isAuthReady (app w) = true ->
          exists uid, userId (app w) = Some uid
                      /\ shownUserId (render (app w)) = Some uid).
Proof.
  intros env evs w.
  pose proof (sound_ready env _ (reachable_sound env evs)) as Hr.
  fold w in Hr. split.
  - unfold ready. destruct (isAuthReady (app w)).
    + destruct (Hr eq_refl) as (-> & _). reflexivity.
    + apply andb_false_r.
  - intros H. destruct (Hr H) as (_ & Hu & _).
    destruct (userId (app w)) as [uid|] eqn:E; [|discriminate Hu].
    exists uid. split; [reflexivity|]. cbn [render shownUserId]. exact E.
Qed.

Lemma ready_exactly_when_signed_in_witness :
  isAuthReady (app worldListed) = true
  /\ exists uid, userId (app worldListed) = Some uid
                 /\ shownUserId (render (app worldListed)) = Some uid.
Proof.
  assert (H : isAuthReady (app worldListed) = true) by reflexivity.
  split; [exact H|].
  exact (proj2 (ready_exactly_when_signed_in envDemo
                  [EvMount SdkOk; EvAuthState (Some (mkUser "u1"));
                   EvSnapshot snapshotDemo]) H).
Defined.

(** ** Completions *)

Lemma removeNth_length {A : Type} (l : list A) (k : nat) (a : A) :
  nth_error l k = Some a ->
  S (List.length (removeNth k l)) = List.length l.
Proof.
  revert k. induction l as [|x l IH]; intros [|k] H; try discriminate H.
  - reflexivity.
  - cbn. f_equal. now apply (IH k).
Qed.

Lemma removeNth_split {A : Type} (l : list A) (k : nat) (a : A) :
  nth_error l k = Some a ->
  exists before after,
    l = before ++ a :: after
    /\ List.length before = k
    /\ removeNth k l = before ++ after.
Proof.
  revert k. induction l as [|x l IH]; intros [|k] H; try discriminate H.
  - injection H as <-. exists [], l. repeat split.
  - destruct (IH k H) as (before & after & -> & Hlen & Hrem).
    exists (x :: before), after. cbn. rewrite Hlen, Hrem. repeat split.
Qed.

(** X16. Whichever awaited promise settles, and in whatever order, exactly
    that promise leaves the promises in flight: those before it and those
    after it stay, in order.  A settled insert or remove clears the loading
    flag, touches nothing else of the state, and never leaves an unhandled
    rejection, even when it was rejected; a settled sign-in changes no
    state at all, logs nothing and, when rejected, is recorded as an
    unhandled rejection. *)
Theorem settle_by_kind :
  forall (env : Env) (w : World) (k : nat) (o : Outcome) (p : Pending),
    nth_error (inflight w) k = Some p ->
    let w' := step env w (EvSettle k o) in
    (exists before after,
        inflight w = before ++ p :: after
        /\ List.length before = k
        /\ inflight w' = before ++ after)
    /\ S (List.length (inflight w')) = List.length (inflight w)
    /\ (isWrite p = true ->
          app w' = setLoading false (app w)
          /\ unhandled w' = unhandled w)
    /\ (p = PendingSignIn ->
          app w' = app w
          /\ trace w' = trace w
          /\ unhandled w'
             = unhandled w
               ++ match o with Fulfilled => [] | Rejected e => [e] end).
Proof.
  intros env w k o p Hp w'. subst w'. unfold step.
  assert (Hen : enabled w (EvSettle k o) = true).
  { cbn [enabled]. apply Nat.ltb_lt, nth_error_Some. congruence. }
  rewrite Hen. cbn [fire]. rewrite Hp.
  destruct (removeNth_split _ _ _ Hp) as (before & after & Hl & Hlen & Hrem).
  destruct p, o; cbn [resume authStateChangedSettle handleAddProductSettle
                        handleRemoveProductSettle];
    rewrite rerunSubscription_same_deps by reflexivity;
    cbn [inflight app unhandled trace thrown];
    rewrite ?app_nil_r;
    (split; [exists before, after; repeat split; assumption|]);
    (split; [exact (removeNth_length _ _ _ Hp)|]);
    split; intros H; try discriminate H; repeat split; reflexivity.
Qed.

Lemma settle_by_kind_witness :
  nth_error (inflight (step envDemo worldListed (EvClickRemove 0))) 0
  = Some PendingRemove
  /\ unhandled (step envDemo (step envDemo worldListed (EvClickRemove 0))
                     (EvSettle 0 (Rejected networkError))) = []
  /\ loading (app (step envDemo (step envDemo worldListed (EvClickRemove 0))
                        (EvSettle 0 (Rejected networkError)))) = false.
Proof.
  assert (Hp : nth_error (inflight (step envDemo worldListed
                                         (EvClickRemove 0))) 0
               = Some PendingRemove) by reflexivity.
  split; [exact Hp|].
  destruct (settle_by_kind envDemo _ 0 (Rejected networkError) _ Hp)
    as (_ & _ & Hwrite & _).
  destruct (Hwrite eq_refl) as [Happ Hun].
  split; [exact Hun | now rewrite Happ].
Defined.

(** ** The auth listener called with a user *)



(** ** Where deleted identifiers come from *)

Lemma run_snoc (env : Env) (w : World) (evs : list Event) (ev : Event) :
  run env w (evs ++ [ev]) = step env (run env w evs) ev.
Proof. unfold run. now rewrite fold_left_app. Qed.

Lemma step_products_built (env : Env) (w : World) (ev : Event)
  (id : string) :
  In id (map product_id (products (app (step env w ev)))) ->
  In id (map product_id (products (app w)))
  \/ exists snapshot,
       ev = EvSnapshot snapshot
       /\ enabled w ev = true
       /\ In id (map product_id (collectProducts snapshot)).
Proof.
  intro Hin.
  destruct ev as [sdk|user|k o|snapshot|e|i now|k];
    try (left; rewrite step_keeps_products in Hin by discriminate;
         exact Hin).
  unfold step in Hin.
  destruct (enabled w (EvSnapshot snapshot)) eqn:Hen; [|now left].
  right. exists snapshot. split; [reflexivity|]. split; [reflexivity|].
  destruct (rerunSubscription_frame env (app w)
              (fire env w (EvSnapshot snapshot))) as (Hp & _).
  rewrite Hp in Hin. cbn [fire app] in Hin.
  unfold onSnapshotNext in Hin. cbn [products setLoading setProducts] in Hin.
  revert Hin. apply Permutation_in, Permutation_map. symmetry.
  apply (array_sort_perm productTimestamp).
Qed.

(** [fire_cases], keeping the equation of each list lookup. *)
Ltac fire_cases_eq env w ev Hnth :=
  destruct ev as [sdk|user|k o|snapshot|e|i now|k]; cbn [fire];
  [ unfold mountEffect;
    destruct (firebase_config env), (app_id env); try destruct sdk
  | unfold authStateChanged;
    destruct user; [|destruct (initial_auth_token env)]
  | destruct (nth_error (inflight w) k) as [[]|] eqn:Hnth; try destruct o
  | idtac
  | idtac
  | destruct (nth_error bakeryItems i) eqn:Hnth;
    [unfold handleAddProduct;
     destruct (negb (isSome (db (app w))) || negb (isAuthReady (app w)))|]
  | destruct (nth_error (products (app w)) k) eqn:Hnth;
    [unfold handleRemoveProduct;
     destruct (negb (isSome (db (app w))) || negb (isAuthReady (app w)))|] ];
  cbn.

(** What a callback adds to the trace, and which deletes are in it. *)
Lemma fire_issued_deletes (env : Env) (w : World) (ev : Event) :
  exists effs,
    trace (fire env w ev) = trace w ++ effs
    /\ forall path id,
         In (DeleteDoc path id) effs ->
         In id (map product_id (products (app w))).
Proof.
  fire_cases_eq env w ev Hnth;
    try (eexists; split; [reflexivity|];
         intros path id [H|[]]; discriminate H);
    try (exists []; split; [now rewrite app_nil_r | intros ? ? []]).
  eexists. split; [reflexivity|].
  intros path id [H|[]]. injection H as _ <-.
  apply in_map. exact (nth_error_In _ _ Hnth).
Qed.

Lemma rerunSubscription_issues_no_delete (env : Env) (old : State)
  (w : World) :
  exists effs,
    trace (rerunSubscription env old w) = trace w ++ effs
    /\ forall path id, ~ In (DeleteDoc path id) effs.
Proof.
  unfold rerunSubscription, subscriptionEffect.
  destruct (depsChanged old (app w));
    [|exists []; split; [now rewrite app_nil_r | intros ? ? []]].
  destruct (isAuthReady (app w) && isSome (db (app w)));
    cbn [trace]; eexists; (split; [reflexivity|]);
    intros path id Hin; apply in_app_iff in Hin as [Hin|Hin];
    try (apply in_map_iff in Hin as [x [Hx _]]; discriminate Hx).
  - destruct Hin as [Hx|[]]. discriminate Hx.
  - destruct Hin.
Qed.

Lemma step_issued_deletes (env : Env) (w : World) (ev : Event) :
  exists effs,
    trace (step env w ev) = trace w ++ effs
    /\ forall path id,
         In (DeleteDoc path id) effs ->
         In id (map product_id (products (app w))).
Proof.
  unfold step. destruct (enabled w ev);
    [|exists []; split; [now rewrite app_nil_r | intros ? ? []]].
  destruct (fire_issued_deletes env w ev) as (effs1 & H1 & Hd1).
  destruct (rerunSubscription_issues_no_delete env (app w) (fire env w ev))
    as (effs2 & H2 & Hd2).
  exists (effs1 ++ effs2). split.
  - now rewrite H2, H1, app_assoc.
  - intros path id Hin. apply in_app_iff in Hin as [Hin|Hin].
    + exact (Hd1 path id Hin).
    + destruct (Hd2 path id Hin).
Qed.

Lemma BuiltFromDelivered_snoc (env : Env) (evs : list Event) (ev : Event)
  (id : string) :
  BuiltFromDelivered env evs id -> BuiltFromDelivered env (evs ++ [ev]) id.
Proof.
  intros (before & snapshot & after & -> & Hen & Hid).
  exists before, snapshot, (after ++ [ev]).
  split; [now rewrite <- app_assoc|]. now split.
Qed.

Lemma shown_products_built (env : Env) (evs : list Event) :
  forall id,
    In id (map product_id (products (app (run env initialWorld evs)))) ->
    BuiltFromDelivered env evs id.
Proof.
  induction evs as [|ev evs IH] using rev_ind; intros id Hin.
  - destruct Hin.
  - rewrite run_snoc in Hin.
    destruct (step_products_built env _ ev id Hin)
      as [Hold|(snapshot & -> & Hen & Hid)].
    + apply BuiltFromDelivered_snoc, IH, Hold.
    + exists evs, snapshot, []. now repeat split.
Qed.

(** X18. The component only deletes what it has listed: whenever an event
    makes it issue a delete-document call, the identifier of that call is
    the identifier of a product the snapshot callback built from a snapshot
    that was delivered before that event. *)
Theorem deletes_only_shown_documents :
  forall (env : Env) (evs : list Event) (ev : Event) (effs : list Effect)
         (path id : string),
    trace (run env initialWorld (evs ++ [ev]))
    = trace (run env initialWorld evs) ++ effs ->
    In (DeleteDoc path id) effs ->
    BuiltFromDelivered env evs id
    /\ In id (map product_id (products (app (run env initialWorld evs)))).
Proof.
  intros env evs ev effs path id Heffs Hin.
  rewrite run_snoc in Heffs.
  destruct (step_issued_deletes env (run env initialWorld evs) ev)
    as (effs0 & H0 & Hd).
  rewrite H0 in Heffs. apply app_inv_head in Heffs. subst effs0.
  pose proof (Hd path id Hin) as Hshown.
  split; [exact (shown_products_built env evs id Hshown) | exact Hshown].
Qed.

Lemma deletes_only_shown_documents_witness :
  trace (run envDemo initialWorld
           ([EvMount SdkOk; EvAuthState (Some (mkUser "u1"));
             EvSnapshot snapshotDemo] ++ [EvClickRemove 0]))
  = trace (run envDemo initialWorld
             [EvMount SdkOk; EvAuthState (Some (mkUser "u1"));
              EvSnapshot snapshotDemo])
    ++ [DeleteDoc "/artifacts/demo/public/data/bakeryOrders" "Z9"]
  /\ BuiltFromDelivered envDemo
       [EvMount SdkOk; EvAuthState (Some (mkUser "u1"));
        EvSnapshot snapshotDemo] "Z9".
Proof.
  assert (Heffs :
            trace (run envDemo initialWorld
                     ([EvMount SdkOk; EvAuthState (Some (mkUser "u1"));
                       EvSnapshot snapshotDemo] ++ [EvClickRemove 0]))
            = trace (run envDemo initialWorld
                       [EvMount SdkOk; EvAuthState (Some (mkUser "u1"));
                        EvSnapshot snapshotDemo])
              ++ [DeleteDoc "/artifacts/demo/public/data/bakeryOrders" "Z9"])
    by reflexivity.
  split; [exact Heffs|].
  exact (proj1 (deletes_only_shown_documents envDemo _ _ _ _ _ Heffs
                  (or_introl eq_refl))).
Defined.

(** ** The loading flag over a whole run *)

Lemma rerunSubscription_keeps_loading (env : Env) (old : State) (w : World) :
  loading (app w) = true ->
  loading (app (rerunSubscription env old w)) = true.
Proof.
  intro H. unfold rerunSubscription, subscriptionEffect.
  destruct (depsChanged old (app w)); [|exact H].
  destruct (isAuthReady (app w) && isSome (db (app w)));
    [reflexivity | exact H].
Qed.

(** A callback that is not one of the clearing ones leaves a set flag
    set. *)
Lemma step_keeps_loading (env : Env) (w : World) (ev : Event) :
  loading (app w) = true -> clearsLoading w ev = false ->
  loading (app (step env w ev)) = true.
Proof.
  intros Hl Hc. unfold step. destruct (enabled w ev); [|exact Hl].
  apply rerunSubscription_keeps_loading.
  destruct ev as [sdk|user|k o|snapshot|e|i now|k]; cbn [clearsLoading] in Hc;
    try discriminate Hc; cbn [fire].
  - destruct user; [discriminate Hc|].
    unfold authStateChanged. now destruct (initial_auth_token env).
  - destruct (nth_error (inflight w) k) as [p|]; [|exact Hl].
    destruct p; try discriminate Hc. now destruct o.
  - destruct (nth_error bakeryItems i); [|exact Hl].
    unfold handleAddProduct.
    now destruct (negb (isSome (db (app w))) || negb (isAuthReady (app w))).
  - destruct (nth_error (products (app w)) k); [|exact Hl].
    unfold handleRemoveProduct.
    now destruct (negb (isSome (db (app w))) || negb (isAuthReady (app w))).
Qed.

Lemma run_keeps_loading (env : Env) (evs : list Event) :
  forall w,
    loading (app w) = true -> noClearingCallback env w evs = true ->
    loading (app (run env w evs)) = true.
Proof.
  induction evs as [|ev evs IH]; intros w Hl Hq; [exact Hl|].
  cbn [noClearingCallback] in Hq. apply andb_true_iff in Hq as [Hc Hq].
  apply negb_true_iff in Hc.
  apply IH; [now apply step_keeps_loading | exact Hq].
Qed.

(** The auth listener is only ever registered when the configuration is
    present. *)
Lemma step_listener_configured (env : Env) (w : World) (ev : Event) :
  (authListener w = true -> configPresent env = true) ->
  authListener (step env w ev) = true -> configPresent env = true.
Proof.
  intros HL. unfold step. destruct (enabled w ev); [|exact HL].
  destruct (rerunSubscription_frame env (app w) (fire env w ev))
    as (_ & _ & _ & _ & _ & _ & _ & _ & ->).
  unfold configPresent in *.
  fire_cases env w ev; trivial; discriminate.
Qed.

Lemma existsb_true_removeNth {A : Type} (f : A -> bool) (l : list A)
  (k : nat) (a : A) :
  existsb f l = true -> nth_error l k = Some a -> f a = false ->
  existsb f (removeNth k l) = true.
Proof.
  revert k. induction l as [|x l IH]; intros [|k] H Hk Ha;
    try discriminate Hk; cbn in *.
  - injection Hk as ->. rewrite Ha in H. exact H.
  - apply orb_true_iff in H as [H|H]; [now rewrite H|].
    rewrite (IH k H Hk Ha). apply orb_true_r.
Qed.

(** In a reachable state, "the flag is set only while a write is in
    flight" is kept by every turn of the event loop. *)
Lemma step_loading_needs_write (env : Env) (w : World) (ev : Event) :
  Sound env w ->
  (authListener w = true -> configPresent env = true) ->
  (loading (app w) = true -> existsb isWrite (inflight w) = true) ->
  loading (app (step env w ev)) = true ->
  existsb isWrite (inflight (step env w ev)) = true.
Proof.
  intros HS HL HP. unfold step.
  destruct (enabled w ev) eqn:Hen; [|exact HP].
  destruct (mounted w) eqn:Hm.
  2: { pose proof (sound_unmounted env w HS Hm) as Hw. subst w.
       specialize (HP eq_refl). discriminate HP. }
  pose proof HS as [S1 S2 S3 S4 S5 S6].
  destruct ev as [sdk|user|k o|snapshot|e|i now|k]; cbn [enabled] in Hen.
  - rewrite Hm in Hen. discriminate Hen.
  - cbn [fire]. unfold authStateChanged. destruct user as [u|].
    + unfold rerunSubscription, depsChanged, subscriptionEffect.
      cbn [app isAuthReady db setLoading setIsAuthReady setUserId trace
           subscription inflight unhandled mounted authListener].
      rewrite handleEqb_refl, (S2 Hen).
      destruct (isAuthReady (app w)) eqn:Hr; cbn -[bakeryOrdersPath].
      * intro H. discriminate H.
      * destruct (S4 eq_refl) as (_ & _ & Hin & _ & Hload).
        specialize (HP (Hload (HL Hen))). congruence.
    + destruct (initial_auth_token env);
        rewrite rerunSubscription_same_deps by reflexivity;
        cbn [app inflight]; intro H;
        rewrite existsb_app, (HP H); reflexivity.
  - cbn [fire]. destruct (nth_error (inflight w) k) as [p|] eqn:Hp.
    2: { now rewrite rerunSubscription_same_deps by reflexivity. }
    destruct p, o; cbn [resume authStateChangedSettle handleAddProductSettle
                          handleRemoveProductSettle];
      rewrite rerunSubscription_same_deps by reflexivity;
      cbn [app inflight loading setLoading]; intro H; try discriminate H;
      exact (existsb_true_removeNth _ _ _ _ (HP H) Hp eq_refl).
  - cbn [fire]. rewrite rerunSubscription_same_deps by reflexivity.
    cbn. intro H. discriminate H.
  - cbn [fire onSnapshotError].
    rewrite rerunSubscription_same_deps by reflexivity.
    cbn. intro H. discriminate H.
  - cbn [fire]. destruct (nth_error bakeryItems i) as [item|].
    2: { now rewrite rerunSubscription_same_deps by reflexivity. }
    destruct (ready (app w)) eqn:Hr.
    + rewrite (handleAddProduct_ready env now item (app w) Hr).
      rewrite rerunSubscription_same_deps by reflexivity.
      cbn [app inflight optionToList]. intros _.
      rewrite existsb_app. cbn. apply orb_true_r.
    + rewrite (handleAddProduct_not_ready env now item (app w) Hr).
      rewrite rerunSubscription_same_deps by reflexivity.
      cbn [app inflight optionToList]. intro H.
      rewrite app_nil_r. exact (HP H).
  - cbn [fire]. destruct (nth_error (products (app w)) k) as [product|].
    2: { now rewrite rerunSubscription_same_deps by reflexivity. }
    destruct (ready (app w)) eqn:Hr.
    + rewrite (handleRemoveProduct_ready env _ (app w) Hr).
      rewrite rerunSubscription_same_deps by reflexivity.
      cbn [app inflight optionToList]. intros _.
      rewrite existsb_app. cbn. apply orb_true_r.
    + rewrite (handleRemoveProduct_not_ready env _ (app w) Hr).
      rewrite rerunSubscription_same_deps by reflexivity.
      cbn [app inflight optionToList]. intro H.
      rewrite app_nil_r. exact (HP H).
Qed.

Lemma run_loading_needs_write (env : Env) (evs : list Event) :
  forall w,
    Sound env w ->
    (authListener w = true -> configPresent env = true) ->
    (loading (app w) = true -> existsb isWrite (inflight w) = true) ->
    loading (app (run env w evs)) = true ->
    existsb isWrite (inflight (run env w evs)) = true.
Proof.
  induction evs as [|ev evs IH]; intros w HS HL HP; [exact HP|].
  apply IH.
  - now apply step_sound.
  - now apply step_listener_configured.
  - now apply step_loading_needs_write.
Qed.

Lemma run_listener_configured (env : Env) (evs : list Event) :
  forall w,
    (authListener w = true -> configPresent env = true) ->
    authListener (run env w evs) = true -> configPresent env = true.
Proof.
  induction evs as [|ev evs IH]; intros w HL; [exact HL|].
  apply IH. now apply step_listener_configured.
Qed.

(** C4, amended. On a ready component, invoking insert or remove sets the
    loading flag, and the flag then stays set for the whole span up to that
    call's completion unless a snapshot delivery, a subscription error, a
    call of the auth listener with a user or the completion of another
    insert or remove runs in between; the call's own completion, success or
    failure, clears it.  Otherwise the flag is false, except during
    startup: it starts out true, and once it has been false it is true only
    while an insert or remove is in flight. *)
Theorem loading_set_by_call_cleared_by_completion :
  forall (env : Env) (o : Outcome) (w : World),
    mounted w = true -> ready (app w) = true ->
    (forall i now item,
        nth_error bakeryItems i = Some item ->
        let w1 := step env w (EvClickAdd i now) in
        let w2 := step env w1 (EvSettle (List.length (inflight w)) o) in
        loading (app w1) = true
        /\ inflight w1 = inflight w ++ [PendingAdd]
        /\ loading (app w2) = false
        /\ inflight w2 = inflight w
        /\ (forall evs,
              noClearingCallback env w1 evs = true ->
              loading (app (run env w1 evs)) = true))
    /\ (forall k product,
        nth_error (products (app w)) k = Some product ->
        let w1 := step env w (EvClickRemove k) in
        let w2 := step env w1 (EvSettle (List.length (inflight w)) o) in
        loading (app w1) = true
        /\ inflight w1 = inflight w ++ [PendingRemove]
        /\ loading (app w2) = false
        /\ inflight w2 = inflight w
        /\ (forall evs,
              noClearingCallback env w1 evs = true ->
              loading (app (run env w1 evs)) = true))
    /\ loading (app initialWorld) = true
    /\ (forall snapshot, loading (onSnapshotNext snapshot (app w)) = false)
    /\ (forall evs1 evs2,
          loading (app (run env initialWorld evs1)) = false ->
          loading (app (run env initialWorld (evs1 ++ evs2))) = true ->
          existsb isWrite (inflight (run env initialWorld (evs1 ++ evs2)))
          = true).
Proof.
  intros env o w Hm Hr.
  split; [|split; [|split; [reflexivity | split; [reflexivity|]]]].
  - intros i now item Hi w1 w2.
    assert (Hw1 : loading (app w1) = true
                  /\ inflight w1 = inflight w ++ [PendingAdd]).
    { subst w1.
      rewrite (step_click_add_ready env w i now item Hm Hr Hi).
      split; reflexivity. }
    destruct Hw1 as [Hl1 Hi1].
    destruct (step_settle_last_write env w1 PendingAdd o (inflight w)
                eq_refl Hi1) as (Hl & Hi' & _).
    repeat split; trivial.
    intros evs Hq. now apply run_keeps_loading.
  - intros k product Hk w1 w2.
    assert (Hw1 : loading (app w1) = true
                  /\ inflight w1 = inflight w ++ [PendingRemove]).
    { subst w1.
      rewrite (step_click_remove_ready env w k product Hm Hr Hk).
      split; reflexivity. }
    destruct Hw1 as [Hl1 Hi1].
    destruct (step_settle_last_write env w1 PendingRemove o (inflight w)
                eq_refl Hi1) as (Hl & Hi' & _).
    repeat split; trivial.
    intros evs Hq. now apply run_keeps_loading.
  - intros evs1 evs2 Hfalse.
    unfold run at 1 2. rewrite fold_left_app.
    apply (run_loading_needs_write env evs2 (run env initialWorld evs1)).
    + apply reachable_sound.
    + apply run_listener_configured. discriminate.
    + intro H. congruence.
Qed.

Lemma loading_set_by_call_cleared_by_completion_witness :
  mounted worldReady = true
  /\ ready (app worldReady) = true
  /\ nth_error bakeryItems 0 = Some sausageRoll
  /\ loading (app (step envDemo worldReady (EvClickAdd 0 1000))) = true
  /\ loading (app (step envDemo (step envDemo worldReady (EvClickAdd 0 1000))
                        (EvSettle 0 (Rejected networkError)))) = false
  /\ loading (app (run envDemo (step envDemo worldReady (EvClickAdd 0 1000))
                       [EvAuthState None; EvClickAdd 1 1001;
                        EvSettle 1 Fulfilled])) = true.
Proof.
  assert (Hm : mounted worldReady = true) by reflexivity.
  assert (Hr : ready (app worldReady) = true) by reflexivity.
  assert (Hi : nth_error bakeryItems 0 = Some sausageRoll) by reflexivity.
  split; [exact Hm|]. split; [exact Hr|]. split; [exact Hi|].
  destruct (loading_set_by_call_cleared_by_completion
              envDemo (Rejected networkError) worldReady Hm Hr)
    as (Hadd & _).
  destruct (Hadd 0 1000%Z sausageRoll Hi) as (H1 & _ & H2 & _ & Hspan).
  split; [exact H1|]. split; [exact H2|].
  exact (Hspan [EvAuthState None; EvClickAdd 1 1001; EvSettle 1 Fulfilled]
               eq_refl).
Defined.
